(** * BatteryCore dashboard: telemetry mirror, history buffer, insight debounce

    A shallow embedding of [src/App.tsx] (the [App] component and the hooks
    it declares), of the data types in [types.ts] and of
    [getBatteryInsights] in [services/geminiService.ts].

    Conventions of the embedding.
    - JavaScript numbers are modelled by exact values: the integer fields
      ([level]) by [Z], the fractional ones ([battery.level], the draws of
      [Math.random], [temperature], [voltage]) by rationals [Q].  The
      rounding of IEEE doubles is not modelled.
    - The component is a state machine.  Its state is the tuple of React
      state hooks and refs; one transition is one browser event followed by
      the re-render and the effects whose dependency arrays changed.
    - The asynchronous [fetchInsights] is split at its [await]: the part before
      it runs inside the transition that calls it and leaves a pending
      request, the part after it is a transition of its own, taken when the
      request settles. *)

From Stdlib Require Import ZArith QArith Qround Lqa Lia Bool String Ascii.
From stdpp Require Import base list.

Local Open Scope Z_scope.

(** ** Numbers *)

Module JsNum.

(** [Math.round]: the nearest integer, ties towards plus infinity. *)
Definition Math_round (x : Q) : Z := Qfloor (x + (1 # 2)).

(** [x.toFixed(d)] prints [n / 10^d] for the integer [n] that makes
    [n / 10^d - x] closest to zero, the larger [n] on a tie; the function
    returns that [n]. *)
Definition toFixed (x : Q) (d : nat) : Z :=
  Qfloor (x * inject_Z (10 ^ Z.of_nat d) + (1 # 2)).

(** [parseFloat] of the digits printed by [toFixed]. *)
Definition parseFloat (n : Z) (d : nat) : Q :=
  n # Z.to_pos (10 ^ Z.of_nat d).

(** [Math.abs] on integers. *)
Definition Math_abs (x : Z) : Z := Z.abs x.

End JsNum.

(** ** Data model ([types.ts]) *)

Inductive Health := Good | Fair | Poor.

(** [chargingTime] and [dischargingTime]: seconds, or [Infinity]. *)
Inductive Seconds := Secs (n : Z) | Infinity.

Record BatteryStats := mkStats {
  level : Z;
  charging : bool;
  chargingTime : Seconds;
  dischargingTime : Seconds;
  temperature : Q;
  voltage : Q;
  health : Health
}.

Record UsageData := mkUsage {
  time : string;
  usage_level : Z
}.

(** What the platform's [BatteryManager] object exposes, together with the
    two draws of [Math.random] that one call of [updateBatteryInfo] makes. *)
Record Battery := mkBattery {
  b_level : Q;
  b_charging : bool;
  b_chargingTime : Seconds;
  b_dischargingTime : Seconds;
  rand_temperature : Q;
  rand_voltage : Q
}.

(** The platform's contract: the level is in [0, 1], [Math.random] is in
    [0, 1). *)
Definition battery_ok (b : Battery) : Prop :=
  (0 <= b_level b <= 1)%Q /\
  (0 <= rand_temperature b < 1)%Q /\
  (0 <= rand_voltage b < 1)%Q.

(** ** Telemetry mirror ([updateBatteryInfo], App.tsx 77-88) *)

Definition sample_temperature (r : Q) : Q :=
  JsNum.parseFloat (JsNum.toFixed (30 + r * 8) 1) 1.

Definition sample_voltage (r : Q) : Q :=
  JsNum.parseFloat (JsNum.toFixed ((36 # 10) + r * (6 # 10)) 2) 2.

Definition updateBatteryInfo (battery : Battery) (prev : BatteryStats)
  : BatteryStats :=
  {| level := JsNum.Math_round (b_level battery * 100);
     charging := b_charging battery;
     chargingTime := b_chargingTime battery;
     dischargingTime := b_dischargingTime battery;
     temperature := sample_temperature (rand_temperature battery);
     voltage := sample_voltage (rand_voltage battery);
     health := health prev |}.

(** ** History buffer (the [setUsageHistory] updater, App.tsx 105-109) *)

Definition history_capacity : nat := 20.

Definition appendHistory (sample : UsageData) (prev : list UsageData)
  : list UsageData :=
  let newData := prev ++ [sample] in
  if decide (history_capacity < length newData)%nat
  then drop 1 newData
  else newData.

(** ** JavaScript values as [JSON.parse] produces them *)

#[local] Set Warnings "-register-all".

Inductive JsValue :=
| JNull
| JBool (b : bool)
| JNum (q : Q)
| JStr (s : string)
| JArr (items : list JsValue)
| JObj (members : list (string * JsValue)).

(** The test of [if (data)]: [null], [false], zero and the empty string are
    falsy, every array and object is truthy. *)
Definition truthy (v : JsValue) : bool :=
  match v with
  | JNull => false
  | JBool b => b
  | JNum q => negb (Qeq_bool q 0)
  | JStr s => negb (String.eqb s EmptyString)
  | JArr _ | JObj _ => true
  end.

Definition is_null (v : JsValue) : bool :=
  match v with JNull => true | _ => false end.

Definition is_string (v : JsValue) : bool :=
  match v with JStr _ => true | _ => false end.

(** Property read [obj.k]: of several members with one key the last one
    counts. *)
Fixpoint get_member (k : string) (members : list (string * JsValue))
  : option JsValue :=
  match members with
  | [] => None
  | (k', v) :: rest =>
      match get_member k rest with
      | Some w => Some w
      | None => if String.eqb k k' then Some v else None
      end
  end.

Definition member_is (p : JsValue -> bool) (k : string)
  (members : list (string * JsValue)) : bool :=
  match get_member k members with
  | Some v => p v
  | None => false
  end.

Definition is_three_strings (v : JsValue) : bool :=
  match v with
  | JArr items => forallb is_string items && Nat.eqb (length items) 3
  | _ => false
  end.

(** The shape of [BatteryInsight]: three string fields and an array of
    three strings. *)
Definition is_BatteryInsight (v : JsValue) : bool :=
  match v with
  | JObj members =>
      member_is is_string "status" members
      && member_is is_string "recommendation" members
      && member_is is_string "estimatedLifeRemaining" members
      && member_is is_three_strings "optimizationTips" members
  | _ => false
  end.

Inductive ParseResult :=
| SyntaxError
| Parsed (v : JsValue).

(** ** The platform's [JSON.parse]

    A reader for the JSON grammar.  A JavaScript string is held as its bytes
    (a [\u] escape is stored in its UTF-8 form, code unit by code unit); a
    number is held as the exact value of its literal. *)

Module JSON.

Definition quote : ascii := "034"%char.

Definition code (c : ascii) : Z := Z.of_N (N_of_ascii c).

Definition byte (n : Z) : ascii := ascii_of_N (Z.to_N n).

Definition is_ws (c : ascii) : bool :=
  let n := code c in
  (n =? 32) || (n =? 9) || (n =? 10) || (n =? 13).

Fixpoint skip_ws (cs : list ascii) : list ascii :=
  match cs with
  | c :: rest => if is_ws c then skip_ws rest else cs
  | [] => []
  end.

Definition digit (c : ascii) : option Z :=
  let n := code c in
  if (48 <=? n) && (n <=? 57) then Some (n - 48) else None.

Definition hex (c : ascii) : option Z :=
  let n := code c in
  if (48 <=? n) && (n <=? 57) then Some (n - 48)
  else if (97 <=? n) && (n <=? 102) then Some (n - 87)
  else if (65 <=? n) && (n <=? 70) then Some (n - 55)
  else None.

(** A run of digits: the value read so far, how many digits were read and
    the rest of the input. *)
Fixpoint digits (acc : Z) (count : nat) (cs : list ascii)
  : Z * nat * list ascii :=
  match cs with
  | c :: rest =>
      match digit c with
      | Some d => digits (acc * 10 + d) (S count) rest
      | None => (acc, count, cs)
      end
  | [] => (acc, count, [])
  end.

Definition fraction (int : Z) (cs : list ascii)
  : option (Z * Z * list ascii) :=
  match cs with
  | c :: rest =>
      if Ascii.eqb c "." then
        match digits int 0 rest with
        | (_, O, _) => None
        | (mant, n, rest') => Some (mant, Z.of_nat n, rest')
        end
      else Some (int, 0, cs)
  | [] => Some (int, 0, [])
  end.

Definition exponent (cs : list ascii) : option (Z * list ascii) :=
  match cs with
  | c :: rest =>
      if Ascii.eqb c "e" || Ascii.eqb c "E" then
        let '(neg, rest1) :=
          match rest with
          | s :: rest' =>
              if Ascii.eqb s "-" then (true, rest')
              else if Ascii.eqb s "+" then (false, rest')
              else (false, rest)
          | [] => (false, rest)
          end in
        match digits 0 0 rest1 with
        | (_, O, _) => None
        | (e, _, rest2) => Some (if neg : bool then - e else e, rest2)
        end
      else Some (0, cs)
  | [] => Some (0, [])
  end.

Definition number (cs : list ascii) : option (Q * list ascii) :=
  let '(neg, cs1) :=
    match cs with
    | c :: rest => if Ascii.eqb c "-" then (true, rest) else (false, cs)
    | [] => (false, cs)
    end in
  match cs1 with
  | [] => None
  | c :: rest =>
      match digit c with
      | None => None
      | Some d =>
          let '(int, _, cs2) :=
            if d =? 0 then (0, 1%nat, rest) else digits d 1 rest in
          match fraction int cs2 with
          | None => None
          | Some (mant, scale, cs3) =>
              match exponent cs3 with
              | None => None
              | Some (e, cs4) =>
                  let v := (inject_Z mant * Qpower 10 (e - scale))%Q in
                  Some (if neg : bool then Qopp v else v, cs4)
              end
          end
      end
  end.

(** One UTF-16 code unit in UTF-8. *)
Definition utf8 (u : Z) : list ascii :=
  if u <? 128 then [byte u]
  else if u <? 2048 then [byte (192 + u / 64); byte (128 + u mod 64)]
  else [byte (224 + u / 4096); byte (128 + (u / 64) mod 64);
        byte (128 + u mod 64)].

Definition escape (c : ascii) : option ascii :=
  if Ascii.eqb c quote then Some quote
  else if Ascii.eqb c "\" then Some "\"%char
  else if Ascii.eqb c "/" then Some "/"%char
  else if Ascii.eqb c "b" then Some (byte 8)
  else if Ascii.eqb c "f" then Some (byte 12)
  else if Ascii.eqb c "n" then Some (byte 10)
  else if Ascii.eqb c "r" then Some (byte 13)
  else if Ascii.eqb c "t" then Some (byte 9)
  else None.

Definition prepend (pre : list ascii) (r : option (list ascii * list ascii))
  : option (list ascii * list ascii) :=
  match r with
  | Some (s, rest) => Some (pre ++ s, rest)
  | None => None
  end.

(** The characters of a string literal, after its opening quote. *)
Fixpoint chars (cs : list ascii) : option (list ascii * list ascii) :=
  match cs with
  | [] => None
  | c :: rest =>
      if Ascii.eqb c quote then Some ([], rest)
      else if Ascii.eqb c "\" then
        match rest with
        | [] => None
        | e :: rest1 =>
            if Ascii.eqb e "u" then
              match rest1 with
              | h3 :: h2 :: h1 :: h0 :: rest2 =>
                  match hex h3, hex h2, hex h1, hex h0 with
                  | Some a, Some b, Some c, Some d =>
                      prepend (utf8 (((a * 16 + b) * 16 + c) * 16 + d))
                              (chars rest2)
                  | _, _, _, _ => None
                  end
              | _ => None
              end
            else
              match escape e with
              | Some x => prepend [x] (chars rest1)
              | None => None
              end
        end
      else if code c <? 32 then None
      else prepend [c] (chars rest)
  end.

(** The rest of a literal name ([true], [false], [null]). *)
Fixpoint keyword (word : string) (v : JsValue) (cs : list ascii)
  : option (JsValue * list ascii) :=
  match word, cs with
  | EmptyString, _ => Some (v, cs)
  | String a word', c :: rest =>
      if Ascii.eqb a c then keyword word' v rest else None
  | String _ _, [] => None
  end.

Fixpoint value (fuel : nat) (cs : list ascii) {struct fuel}
  : option (JsValue * list ascii) :=
  match fuel with
  | O => None
  | S fuel' =>
      match skip_ws cs with
      | [] => None
      | c :: rest =>
          if Ascii.eqb c "{" then
            match skip_ws rest with
            | c' :: rest' =>
                if Ascii.eqb c' "}" then Some (JObj [], rest')
                else members fuel' rest []
            | [] => None
            end
          else if Ascii.eqb c "[" then
            match skip_ws rest with
            | c' :: rest' =>
                if Ascii.eqb c' "]" then Some (JArr [], rest')
                else elements fuel' rest []
            | [] => None
            end
          else if Ascii.eqb c quote then
            match chars rest with
            | Some (s, rest') => Some (JStr (string_of_list_ascii s), rest')
            | None => None
            end
          else if Ascii.eqb c "t" then keyword "rue" (JBool true) rest
          else if Ascii.eqb c "f" then keyword "alse" (JBool false) rest
          else if Ascii.eqb c "n" then keyword "ull" JNull rest
          else
            match number (c :: rest) with
            | Some (q, rest') => Some (JNum q, rest')
            | None => None
            end
      end
  end
with elements (fuel : nat) (cs : list ascii) (acc : list JsValue)
  {struct fuel} : option (JsValue * list ascii) :=
  match fuel with
  | O => None
  | S fuel' =>
      match value fuel' cs with
      | Some (v, rest) =>
          match skip_ws rest with
          | c :: rest' =>
              if Ascii.eqb c "," then elements fuel' rest' (v :: acc)
              else if Ascii.eqb c "]"
                   then Some (JArr (rev (v :: acc)), rest')
                   else None
          | [] => None
          end
      | None => None
      end
  end
with members (fuel : nat) (cs : list ascii) (acc : list (string * JsValue))
  {struct fuel} : option (JsValue * list ascii) :=
  match fuel with
  | O => None
  | S fuel' =>
      match skip_ws cs with
      | c :: rest =>
          if Ascii.eqb c quote then
            match chars rest with
            | Some (k, rest1) =>
                match skip_ws rest1 with
                | colon :: rest2 =>
                    if Ascii.eqb colon ":" then
                      match value fuel' rest2 with
                      | Some (v, rest3) =>
                          let acc' := (string_of_list_ascii k, v) :: acc in
                          match skip_ws rest3 with
                          | c' :: rest4 =>
                              if Ascii.eqb c' ","
                              then members fuel' rest4 acc'
                              else if Ascii.eqb c' "}"
                                   then Some (JObj (rev acc'), rest4)
                                   else None
                          | [] => None
                          end
                      | None => None
                      end
                    else None
                | [] => None
                end
            | None => None
            end
          else None
      | [] => None
      end
  end.

(** [JSON.parse(text)]: one value between optional white space; anything
    else throws a [SyntaxError]. *)
Definition parse (text : string) : ParseResult :=
  let cs := list_ascii_of_string text in
  match value (2 * length cs + 2) cs with
  | Some (v, rest) =>
      match skip_ws rest with
      | [] => Parsed v
      | _ :: _ => SyntaxError
      end
  | None => SyntaxError
  end.

End JSON.

(** ** Insight client ([getBatteryInsights], services/geminiService.ts) *)

(** How the awaited [ai.models.generateContent] call ends: it rejects, or it
    resolves to a response whose [text] is [undefined] or a string. *)
Inductive ServiceOutcome :=
| Rejected
| Responded (text : option string).

Section InsightClient.

(** The platform's [JSON.parse]. *)
Variable JSON_parse : string -> ParseResult.

(** The request is built from [stats]; the body of the [try] block returns
    [null] on a missing or empty text and the parsed value otherwise, the
    [catch] block turns a rejection or a [SyntaxError] into [null]. *)
Definition getBatteryInsights (stats : BatteryStats) (o : ServiceOutcome)
  : JsValue :=
  match o with
  | Rejected => JNull
  | Responded None => JNull
  | Responded (Some text) =>
      if String.eqb text EmptyString then JNull
      else match JSON_parse text with
           | SyntaxError => JNull
           | Parsed v => v
           end
  end.

(** ** The component ([App], App.tsx) *)

(** The state hooks and the ref of [App], and the requests that are in
    flight: [pending] lists the calls of [getBatteryInsights] that have not
    settled, each with the stats it was made with, and [fetchCount] counts
    the calls made so far. *)
Record AppState := mkApp {
  stats : BatteryStats;
  insight : JsValue;
  loadingInsight : bool;
  usageHistory : list UsageData;
  lastFetchedLevel : option Z;
  isOnline : bool;
  pending : list BatteryStats;
  fetchCount : nat
}.

Definition initialStats : BatteryStats :=
  {| level := 100;
     charging := false;
     chargingTime := Secs 0;
     dischargingTime := Secs 0;
     temperature := 324 # 10;
     voltage := 38 # 10;
     health := Good |}.

(** The first render; [onLine] is [navigator.onLine]. *)
Definition initialState (onLine : bool) : AppState :=
  {| stats := initialStats;
     insight := JNull;
     loadingInsight := false;
     usageHistory := [];
     lastFetchedLevel := None;
     isOnline := onLine;
     pending := [];
     fetchCount := 0 |}.

Definition setStats (f : BatteryStats -> BatteryStats) (s : AppState)
  : AppState :=
  mkApp (f (stats s)) (insight s) (loadingInsight s) (usageHistory s)
        (lastFetchedLevel s) (isOnline s) (pending s) (fetchCount s).

Definition setInsight (v : JsValue) (s : AppState) : AppState :=
  mkApp (stats s) v (loadingInsight s) (usageHistory s)
        (lastFetchedLevel s) (isOnline s) (pending s) (fetchCount s).

Definition setLoadingInsight (b : bool) (s : AppState) : AppState :=
  mkApp (stats s) (insight s) b (usageHistory s)
        (lastFetchedLevel s) (isOnline s) (pending s) (fetchCount s).

Definition setUsageHistory (f : list UsageData -> list UsageData)
  (s : AppState) : AppState :=
  mkApp (stats s) (insight s) (loadingInsight s) (f (usageHistory s))
        (lastFetchedLevel s) (isOnline s) (pending s) (fetchCount s).

Definition setLastFetchedLevel (l : Z) (s : AppState) : AppState :=
  mkApp (stats s) (insight s) (loadingInsight s) (usageHistory s)
        (Some l) (isOnline s) (pending s) (fetchCount s).

Definition setIsOnline (b : bool) (s : AppState) : AppState :=
  mkApp (stats s) (insight s) (loadingInsight s) (usageHistory s)
        (lastFetchedLevel s) b (pending s) (fetchCount s).

(** The call [getBatteryInsights(stats)] up to its first [await]: the request
    leaves. *)
Definition sendRequest (s : AppState) : AppState :=
  mkApp (stats s) (insight s) (loadingInsight s) (usageHistory s)
        (lastFetchedLevel s) (isOnline s) (pending s ++ [stats s])
        (S (fetchCount s)).

Definition settleRequest (i : nat) (s : AppState) : AppState :=
  mkApp (stats s) (insight s) (loadingInsight s) (usageHistory s)
        (lastFetchedLevel s) (isOnline s) (delete i (pending s))
        (fetchCount s).

(** [fetchInsights] (App.tsx 130-136) up to the [await]. *)
Definition fetchInsights (s : AppState) : AppState :=
  if negb (isOnline s) then s
  else sendRequest (setLoadingInsight true s).

(** [fetchInsights] after the [await], with the [data] it resolved to. *)
Definition fetchInsights_resume (data : JsValue) (s : AppState) : AppState :=
  let s1 := if truthy data then setInsight data s else s in
  setLoadingInsight false s1.

Definition level_moved (last : option Z) (l : Z) : bool :=
  match last with
  | None => true
  | Some l0 => 5 <=? JsNum.Math_abs (l0 - l)
  end.

(** The effect with dependencies [[stats.level, isOnline]]
    (App.tsx 138-144). *)
Definition insightEffect (s : AppState) : AppState :=
  if isOnline s && level_moved (lastFetchedLevel s) (level (stats s))
  then setLastFetchedLevel (level (stats s)) (fetchInsights s)
  else s.

(** The [disabled] attribute of the Deep Analyze button (App.tsx 194). *)
Definition deepAnalyzeDisabled (s : AppState) : bool :=
  loadingInsight s || negb (isOnline s).

(** What the browser delivers to the mounted component. *)
Inductive Event :=
| BatteryChange (battery : Battery)
| HistoryTick (now : string)
| NetworkChange (online : bool)
| DeepAnalyzeClick
| FetchSettled (i : nat) (o : ServiceOutcome).

(** One event, the render it causes and the effects that render runs.
    [insightEffect] runs only after a render in which [stats.level] or
    [isOnline] differs from the render before. *)
Definition step (e : Event) (s : AppState) : AppState :=
  match e with
  | BatteryChange battery =>
      let s1 := setStats (updateBatteryInfo battery) s in
      if level (stats s1) =? level (stats s) then s1 else insightEffect s1
  | HistoryTick now =>
      setUsageHistory
        (appendHistory {| time := now; usage_level := level (stats s) |}) s
  | NetworkChange online =>
      let s1 := setIsOnline online s in
      if Bool.eqb online (isOnline s) then s1 else insightEffect s1
  | DeepAnalyzeClick =>
      if deepAnalyzeDisabled s then s else fetchInsights s
  | FetchSettled i o =>
      match pending s !! i with
      | None => s
      | Some request =>
          fetchInsights_resume (getBatteryInsights request o)
                               (settleRequest i s)
      end
  end.

(** Mounting: the first render and every effect once. *)
Definition mount (onLine : bool) : AppState :=
  insightEffect (initialState onLine).

Definition run (es : list Event) (s : AppState) : AppState :=
  fold_left (fun s e => step e s) es s.

End InsightClient.

(** ** Runs *)

(** The platform's contract for the events: a battery level in [0, 1]. *)
Definition telemetry_ok (e : Event) : Prop :=
  match e with
  | BatteryChange b => (0 <= b_level b <= 1)%Q
  | _ => True
  end.

(** The buffer after [samples] have been appended to [h], oldest first. *)
Definition appendAll (samples h : list UsageData) : list UsageData :=
  fold_left (fun h x => appendHistory x h) samples h.

(** The samples that the history ticks of a run take, oldest first. *)
Fixpoint recorded (parse : string -> ParseResult) (es : list Event)
  (s : AppState) : list UsageData :=
  match es with
  | [] => []
  | e :: es' =>
      match e with
      | HistoryTick now =>
          [{| time := now; usage_level := level (stats s) |}]
      | _ => []
      end ++ recorded parse es' (step parse e s)
  end.

(** A battery that reports level [l]. *)
Definition battery_at (l : Q) : Battery :=
  {| b_level := l;
     b_charging := false;
     b_chargingTime := Infinity;
     b_dischargingTime := Secs 3600;
     rand_temperature := 1 # 2;
     rand_voltage := 1 # 2 |}.

(** The levels 94, 91 and 88 reported in turn. *)
Definition drain_94_91_88 : list Event :=
  [BatteryChange (battery_at (94 # 100));
   BatteryChange (battery_at (91 # 100));
   BatteryChange (battery_at (88 # 100))].

(** [n] history ticks, numbered from [k]. *)
Fixpoint tick_samples (k : Z) (n : nat) : list UsageData :=
  match n with
  | O => []
  | S n' => {| time := EmptyString; usage_level := k |}
            :: tick_samples (k + 1) n'
  end.

(** A battery whose two draws of [Math.random] are 0.999. *)
Definition battery_high_draws : Battery :=
  {| b_level := 1 # 2;
     b_charging := true;
     b_chargingTime := Secs 1200;
     b_dischargingTime := Infinity;
     rand_temperature := 999 # 1000;
     rand_voltage := 999 # 1000 |}.

(** Whether a transition adds a call of [getBatteryInsights]. *)
Definition triggers_fetch (s s' : AppState) : Prop :=
  fetchCount s' = S (fetchCount s).

(** The event that raises the connectivity flag. *)
Definition goes_online (e : Event) : bool :=
  match e with
  | NetworkChange true => true
  | _ => false
  end.

(** What holds of the debounce bookkeeping between events: while online the
    last requested level is set and within 5 points of the displayed level;
    the last requested level is unset exactly while no request was made; and
    the loading flag is raised only while a request is in flight. *)
Definition debounce_inv (s : AppState) : Prop :=
  (isOnline s = true ->
   exists l0, lastFetchedLevel s = Some l0
              /\ JsNum.Math_abs (l0 - level (stats s)) < 5) /\
  (lastFetchedLevel s = None <-> fetchCount s = 0%nat) /\
  (loadingInsight s = true -> pending s <> []).

(** [s] between double quotes. *)
Definition quoted (s : string) : string :=
  String JSON.quote (s ++ String JSON.quote EmptyString).

(** A response text that has the shape of [BatteryInsight]. *)
Definition healthy_report : string :=
  "{" ++ quoted "status" ++ ":" ++ quoted "Healthy" ++ ","
  ++ quoted "recommendation" ++ ":" ++ quoted "Keep it cool" ++ ","
  ++ quoted "estimatedLifeRemaining" ++ ":" ++ quoted "About 9 hours" ++ ","
  ++ quoted "optimizationTips" ++ ":["
  ++ quoted "Dim the screen" ++ "," ++ quoted "Close idle tabs" ++ ","
  ++ quoted "Unplug at 80%" ++ "]}".

(** A response text with every required field but only two tips. *)
Definition two_tips_report : string :=
  "{" ++ quoted "status" ++ ":" ++ quoted "Healthy" ++ ","
  ++ quoted "recommendation" ++ ":" ++ quoted "Keep it cool" ++ ","
  ++ quoted "estimatedLifeRemaining" ++ ":" ++ quoted "About 9 hours" ++ ","
  ++ quoted "optimizationTips" ++ ":["
  ++ quoted "Dim the screen" ++ "," ++ quoted "Close idle tabs" ++ "]}".

(** The component mounted online, its first request answered by
    [healthy_report], and a second request started from the button. *)
Definition insight_shown : AppState :=
  run JSON.parse
      [FetchSettled 0 (Responded (Some healthy_report)); DeepAnalyzeClick]
      (mount true).

(** ** Battery gauge ([BatteryGauge], components/BatteryGauge.tsx) *)

Module BatteryGauge.

Definition getColor (lvl : Z) : string :=
  if 60 <? lvl then "bg-emerald-500"
  else if 20 <? lvl then "bg-amber-500"
  else "bg-rose-500".

Definition getShadow (lvl : Z) : string :=
  if 60 <? lvl then "shadow-[0_0_20px_rgba(16,185,129,0.4)]"
  else if 20 <? lvl then "shadow-[0_0_20px_rgba(245,158,11,0.4)]"
  else "shadow-[0_0_20px_rgba(244,63,94,0.4)]".

End BatteryGauge.

(** ** What the component shows (the JSX of [App]) *)

(** The Full Charge ETA (App.tsx 348-350): the minutes printed before
    [min], or [None] where the page prints [N/A]. *)
Definition fullChargeEta (st : BatteryStats) : option Z :=
  if charging st then
    match chargingTime st with
    | Secs n => Some (JsNum.Math_round (inject_Z n / 60))
    | Infinity => None
    end
  else None.

(** The read [insight.k] for the four field names of [BatteryInsight]; [None]
    is [undefined].  No prototype has a property of one of these names, so
    only an object can answer. *)
Definition insight_field (v : JsValue) (k : string) : option JsValue :=
  match v with
  | JObj members => get_member k members
  | _ => None
  end.

(** The alternatives of the insight box (App.tsx 281-327).  [Report] carries
    the values placed in the heading, the quotation and the life line, and
    one card per tip with the number printed after [TIP #];
    [PanelTypeError] is the [TypeError] of calling [map] on something that is
    not an array.  What React does with the values it is handed is not
    modelled. *)
Inductive InsightPanel :=
| Skeleton
| Report (status recommendation estimatedLifeRemaining : option JsValue)
         (tips : list (Z * JsValue))
| OfflineHint
| RunHint
| PanelTypeError.

Definition tipCards (items : list JsValue) : list (Z * JsValue) :=
  imap (fun idx tip => (Z.of_nat idx + 1, tip)) items.

Definition renderInsightPanel (s : AppState) : InsightPanel :=
  if loadingInsight s then Skeleton
  else if truthy (insight s) then
    match insight_field (insight s) "optimizationTips" with
    | Some (JArr items) =>
        Report (insight_field (insight s) "status")
               (insight_field (insight s) "recommendation")
               (insight_field (insight s) "estimatedLifeRemaining")
               (tipCards items)
    | _ => PanelTypeError
    end
  else if negb (isOnline s) then OfflineHint
  else RunHint.

(** Whether [insight.optimizationTips] is an array. *)
Definition has_tips_array (v : JsValue) : bool :=
  match insight_field v "optimizationTips" with
  | Some (JArr _) => true
  | _ => false
  end.

(** The connectivity flag that the [online] and [offline] events of a run
    leave, starting from [init]. *)
Definition last_network (es : list Event) (init : bool) : bool :=
  fold_left (fun flag e =>
               match e with
               | NetworkChange online => online
               | _ => flag
               end) es init.

(** A settled request whose data is [null] or has the shape of
    [BatteryInsight]. *)
Definition well_formed_answer (parse : string -> ParseResult) (e : Event)
  : Prop :=
  match e with
  | FetchSettled _ o =>
      forall request,
        let data := getBatteryInsights parse request o in
        is_null data = true \/ is_BatteryInsight data = true
  | _ => True
  end.

(** ** Subscriptions of the battery effect (App.tsx 74-127)

    The effect with dependencies [[stats.level]] runs once per render in which
    the level changed; run [k] creates its own [updateBatteryInfo] and, when
    its [getBattery] promise resolves, four arrow functions that call it.
    A listener is removed only by the function object that was added. *)

Module Lifecycle.

Inductive BatteryEventType :=
| levelchange
| chargingchange
| chargingtimechange
| dischargingtimechange.

(** The function objects of run [k]. *)
Inductive Fn :=
| UpdateBatteryInfo (k : nat)
| Arrow (k : nat) (t : BatteryEventType).

#[export] Instance BatteryEventType_eq_dec : EqDecision BatteryEventType.
Proof. solve_decision. Defined.

#[export] Instance Fn_eq_dec : EqDecision Fn.
Proof. solve_decision. Defined.

Definition Listener : Type := BatteryEventType * Fn.

(** [EventTarget.addEventListener]: a listener already present is not added
    again. *)
Definition addEventListener {A} `{EqDecision A} (l : A) (ls : list A)
  : list A :=
  if decide (l ∈ ls) then ls else ls ++ [l].

(** [EventTarget.removeEventListener]: a listener that is not present is
    ignored. *)
Definition removeEventListener {A} `{EqDecision A} (l : A) (ls : list A)
  : list A :=
  filter (fun l' => l' <> l) ls.

(** [current] is the latest run of the effect; [unresolved] the runs whose
    [getBattery] promise has not resolved; [instances] the runs whose
    [batteryInstance] is set; [listeners] the listeners of the battery
    object; [timers] the runs whose history interval is active;
    [promptHandlers] the [beforeinstallprompt] handlers on [window], by
    run. *)
Record Subscriptions := mkSubs {
  current : nat;
  unresolved : list nat;
  instances : list nat;
  listeners : list Listener;
  timers : list nat;
  promptHandlers : list nat
}.

(** The body of the effect in run [k]: ask for the battery, start the
    history interval, listen for the install prompt. *)
Definition effectRun (k : nat) (st : Subscriptions) : Subscriptions :=
  mkSubs k (unresolved st ++ [k]) (instances st) (listeners st)
         (timers st ++ [k]) (addEventListener k (promptHandlers st)).

(** The [then] callback of run [k] (App.tsx 91-99), after its call of
    [updateBatteryInfo]. *)
Definition batteryResolved (k : nat) (st : Subscriptions) : Subscriptions :=
  if decide (k ∈ unresolved st) then
    mkSubs (current st)
           (filter (fun k' => k' <> k) (unresolved st))
           (k :: instances st)
           (addEventListener (dischargingtimechange, Arrow k dischargingtimechange)
              (addEventListener (chargingtimechange, Arrow k chargingtimechange)
                 (addEventListener (chargingchange, Arrow k chargingchange)
                    (addEventListener (levelchange, Arrow k levelchange)
                       (listeners st)))))
           (timers st) (promptHandlers st)
  else st.

(** The cleanup of run [k] (App.tsx 119-126). *)
Definition effectCleanup (k : nat) (st : Subscriptions) : Subscriptions :=
  mkSubs (current st) (unresolved st) (instances st)
         (if decide (k ∈ instances st) then
            removeEventListener (chargingchange, UpdateBatteryInfo k)
              (removeEventListener (levelchange, UpdateBatteryInfo k)
                 (listeners st))
          else listeners st)
         (filter (fun k' => k' <> k) (timers st))
         (removeEventListener k (promptHandlers st)).

Inductive LifecycleEvent :=
| LevelRerender
| BatteryResolved (k : nat).

Definition mounted : Subscriptions :=
  effectRun 0 (mkSubs 0 [] [] [] [] []).

(** A render with a new level cleans up the latest run and runs the effect
    again. *)
Definition lifecycle_step (e : LifecycleEvent) (st : Subscriptions)
  : Subscriptions :=
  match e with
  | LevelRerender =>
      effectRun (S (current st)) (effectCleanup (current st) st)
  | BatteryResolved k => batteryResolved k st
  end.

Definition lifecycle_run (es : list LifecycleEvent) (st : Subscriptions)
  : Subscriptions :=
  fold_left (fun st e => lifecycle_step e st) es st.

(** How many times one event of type [t] on the battery calls
    [updateBatteryInfo]: once per listener of that type. *)
Definition calls_per_event (t : BatteryEventType) (st : Subscriptions) : nat :=
  length (filter (fun l : Listener => l.1 = t) (listeners st)).

(** The four listeners that run [k] adds, in the order of the source. *)
Definition arrows (k : nat) : list Listener :=
  [(levelchange, Arrow k levelchange);
   (chargingchange, Arrow k chargingchange);
   (chargingtimechange, Arrow k chargingtimechange);
   (dischargingtimechange, Arrow k dischargingtimechange)].

(** How many renders with a new level a run of events has. *)
Definition is_rerender (e : LifecycleEvent) : bool :=
  match e with
  | LevelRerender => true
  | BatteryResolved _ => false
  end.

Definition rerenders (es : list LifecycleEvent) : nat :=
  length (filter (fun e => is_rerender e = true) es).

(** The listeners that the resolved runs [inst] (latest first) have added,
    oldest run first. *)
Definition listeners_of (inst : list nat) : list Listener :=
  flat_map arrows (rev inst).

(** What holds of the subscriptions between events. *)
Definition subs_inv (st : Subscriptions) : Prop :=
  timers st = [current st] /\
  promptHandlers st = [current st] /\
  listeners st = listeners_of (instances st) /\
  (forall k, k ∈ unresolved st -> k ∉ instances st) /\
  (forall k, k ∈ unresolved st -> (k <= current st)%nat) /\
  (forall k, k ∈ instances st -> (k <= current st)%nat).

End Lifecycle.

(** * Properties *)

(** ** Rounding *)

Lemma Math_round_bounds (x lo hi : Q) (a b : Z) :
  (lo <= x <= hi)%Q ->
  Qfloor (lo + (1 # 2)) = a -> Qfloor (hi + (1 # 2)) = b ->
  a <= JsNum.Math_round x <= b.
Proof.
  intros [Hlo Hhi] <- <-. unfold JsNum.Math_round.
  split; apply Qfloor_resp_le; lra.
Qed.

Lemma toFixed_bounds (x lo hi : Q) (d : nat) (a b : Z) :
  (lo <= x <= hi)%Q ->
  JsNum.toFixed lo d = a -> JsNum.toFixed hi d = b ->
  a <= JsNum.toFixed x d <= b.
Proof.
  intros [Hlo Hhi] <- <-. unfold JsNum.toFixed.
  assert (0 <= inject_Z (10 ^ Z.of_nat d))%Q as Hp.
  { change 0%Q with (inject_Z 0). rewrite <- Zle_Qle. apply Z.pow_nonneg. lia. }
  split; apply Qfloor_resp_le; nra.
Qed.

Lemma parseFloat_bounds (n a b : Z) (d : nat) :
  a <= n <= b ->
  (JsNum.parseFloat a d <= JsNum.parseFloat n d <= JsNum.parseFloat b d)%Q.
Proof.
  intros [Ha Hb]. unfold JsNum.parseFloat, Qle. simpl.
  split; apply Z.mul_le_mono_nonneg_r; lia.
Qed.

(** ** Telemetry mirror *)

Lemma updateBatteryInfo_level (b : Battery) (prev : BatteryStats) :
  level (updateBatteryInfo b prev) = JsNum.Math_round (b_level b * 100).
Proof. reflexivity. Qed.

Lemma updateBatteryInfo_level_range (b : Battery) (prev : BatteryStats) :
  (0 <= b_level b <= 1)%Q ->
  0 <= level (updateBatteryInfo b prev) <= 100.
Proof.
  intros H. rewrite updateBatteryInfo_level.
  apply (Math_round_bounds _ 0 100); [lra | reflexivity | reflexivity].
Qed.

Lemma sample_temperature_range (r : Q) :
  (0 <= r < 1)%Q -> (30 <= sample_temperature r <= 38)%Q.
Proof.
  intros H. unfold sample_temperature.
  assert (300 <= JsNum.toFixed (30 + r * 8) 1 <= 380) as Hn.
  { apply (toFixed_bounds _ 30 38); [lra | reflexivity | reflexivity]. }
  apply (parseFloat_bounds _ _ _ 1) in Hn. destruct Hn as [Hlo Hhi].
  split; [apply Qle_trans with (2 := Hlo) | apply Qle_trans with (1 := Hhi)];
    vm_compute; discriminate.
Qed.

Lemma sample_voltage_range (r : Q) :
  (0 <= r < 1)%Q -> ((36 # 10) <= sample_voltage r <= (42 # 10))%Q.
Proof.
  intros H. unfold sample_voltage.
  assert (360 <= JsNum.toFixed ((36 # 10) + r * (6 # 10)) 2 <= 420) as Hn.
  { apply (toFixed_bounds _ (36 # 10) (42 # 10));
      [lra | reflexivity | reflexivity]. }
  apply (parseFloat_bounds _ _ _ 2) in Hn. destruct Hn as [Hlo Hhi].
  split; [apply Qle_trans with (2 := Hlo) | apply Qle_trans with (1 := Hhi)];
    vm_compute; discriminate.
Qed.

(** ** Which transition touches which hook *)

Ltac unfold_app :=
  unfold insightEffect, fetchInsights, fetchInsights_resume, sendRequest,
    settleRequest, setStats, setInsight, setLoadingInsight, setUsageHistory,
    setLastFetchedLevel, setIsOnline, deepAnalyzeDisabled in *.

Ltac split_ifs :=
  repeat match goal with
         | |- context [if ?c then _ else _] => destruct c eqn:?
         | |- context [match ?c with Some _ => _ | None => _ end] =>
             destruct c eqn:?
         end.

Lemma stats_insightEffect (s : AppState) :
  stats (insightEffect s) = stats s.
Proof. unfold_app. split_ifs; reflexivity. Qed.

Lemma stats_step (parse : string -> ParseResult) (e : Event) (s : AppState) :
  stats (step parse e s) =
  match e with
  | BatteryChange b => updateBatteryInfo b (stats s)
  | _ => stats s
  end.
Proof.
  destruct e; simpl; try rewrite stats_insightEffect;
    unfold_app; split_ifs; try rewrite stats_insightEffect; reflexivity.
Qed.

Lemma run_app (parse : string -> ParseResult) (es1 es2 : list Event)
  (s : AppState) :
  run parse (es1 ++ es2) s = run parse es2 (run parse es1 s).
Proof. unfold run. apply fold_left_app. Qed.

Lemma run_snoc (parse : string -> ParseResult) (es : list Event) (e : Event)
  (s : AppState) :
  run parse (es ++ [e]) s = step parse e (run parse es s).
Proof. rewrite run_app. reflexivity. Qed.

(** An invariant of the transitions holds in every state the component
    reaches. *)
Lemma run_invariant (parse : string -> ParseResult) (P : AppState -> Prop)
  (Q : Event -> Prop) :
  (forall e s, Q e -> P s -> P (step parse e s)) ->
  forall es s, Forall Q es -> P s -> P (run parse es s).
Proof.
  intros Hstep es. induction es as [|e es IH]; intros s Hes Hs; [exact Hs|].
  inversion Hes; subst. simpl. apply IH; [assumption|]. apply Hstep; assumption.
Qed.

(** C9. The displayed level is 100 after mounting, every telemetry update
    sets it to [Math.round(battery.level * 100)], and with battery levels in
    [0, 1] it is in [0, 100] after every sequence of events. *)
Theorem level_in_range (parse : string -> ParseResult) (onLine : bool)
  (es : list Event) :
  Forall telemetry_ok es ->
  level (stats (mount onLine)) = 100 /\
  (forall b s,
      level (stats (step parse (BatteryChange b) s))
      = JsNum.Math_round (b_level b * 100)) /\
  0 <= level (stats (run parse es (mount onLine))) <= 100.
Proof.
  intros Hes. split; [|split].
  - unfold mount. rewrite stats_insightEffect. reflexivity.
  - intros b s. rewrite stats_step. reflexivity.
  - apply (run_invariant parse (fun s => 0 <= level (stats s) <= 100)
                           telemetry_ok); [| exact Hes |].
    + intros e s He Hs. rewrite stats_step. destruct e; try exact Hs.
      apply updateBatteryInfo_level_range. exact He.
    + unfold mount. rewrite stats_insightEffect. simpl. lia.
Qed.

(** The run 94, 91, 88 after mounting online stays in range. *)
Lemma level_in_range_witness :
  Forall telemetry_ok drain_94_91_88 /\
  0 <= level (stats (run JSON.parse drain_94_91_88 (mount true))) <= 100.
Proof.
  assert (Forall telemetry_ok drain_94_91_88) as H.
  { repeat constructor; vm_compute; discriminate. }
  split; [exact H|].
  apply (level_in_range JSON.parse true drain_94_91_88 H).
Defined.

(** ** History buffer *)

Lemma appendHistory_length (x : UsageData) (prev : list UsageData) :
  (length prev <= history_capacity)%nat ->
  (length (appendHistory x prev) <= history_capacity)%nat.
Proof.
  intros H. unfold appendHistory. cbv zeta.
  destruct (decide _) as [Hgt|Hle].
  - rewrite length_drop, length_app. simpl. lia.
  - lia.
Qed.

(** Below capacity nothing is evicted; at capacity exactly the oldest sample
    is. *)
Lemma appendHistory_fifo (x : UsageData) (prev : list UsageData) :
  (length prev <= history_capacity)%nat ->
  appendHistory x prev =
  if decide (length prev < history_capacity)%nat
  then prev ++ [x]
  else drop 1 prev ++ [x].
Proof.
  intros H. unfold appendHistory. cbv zeta.
  rewrite length_app. simpl.
  destruct (decide (history_capacity < _)%nat);
    destruct (decide (_ < history_capacity)%nat); try lia; try reflexivity.
  rewrite drop_app_le; [reflexivity|]. unfold history_capacity in *. lia.
Qed.

Lemma appendAll_snoc (samples h : list UsageData) (x : UsageData) :
  appendAll (samples ++ [x]) h = appendHistory x (appendAll samples h).
Proof. unfold appendAll. rewrite fold_left_app. reflexivity. Qed.

Lemma appendAll_window (samples : list UsageData) :
  appendAll samples [] = drop (length samples - history_capacity) samples.
Proof.
  induction samples as [|x samples IH] using rev_ind; [reflexivity|].
  rewrite appendAll_snoc, IH, length_app. simpl.
  rewrite appendHistory_fifo by (rewrite length_drop; lia).
  rewrite length_drop.
  destruct (decide _) as [Hlt|Hge].
  - assert (length samples < history_capacity)%nat as Hs by lia.
    replace (length samples - history_capacity)%nat with 0%nat by lia.
    replace (length samples + 1 - history_capacity)%nat with 0%nat by lia.
    reflexivity.
  - assert (history_capacity <= length samples)%nat as Hs.
    { unfold history_capacity in *. lia. }
    unfold history_capacity in *.
    rewrite drop_drop, drop_app_le by lia.
    f_equal. f_equal. lia.
Qed.

Lemma usageHistory_insightEffect (s : AppState) :
  usageHistory (insightEffect s) = usageHistory s.
Proof. unfold_app. split_ifs; reflexivity. Qed.

Lemma usageHistory_step (parse : string -> ParseResult) (e : Event)
  (s : AppState) :
  usageHistory (step parse e s) =
  match e with
  | HistoryTick now =>
      appendHistory {| time := now; usage_level := level (stats s) |}
                    (usageHistory s)
  | _ => usageHistory s
  end.
Proof.
  destruct e; simpl; try rewrite usageHistory_insightEffect;
    unfold_app; split_ifs; try rewrite usageHistory_insightEffect; reflexivity.
Qed.

Lemma usageHistory_run (parse : string -> ParseResult) (es : list Event)
  (s : AppState) :
  usageHistory (run parse es s)
  = appendAll (recorded parse es s) (usageHistory s).
Proof.
  revert s. induction es as [|e es IH]; intros s; [reflexivity|].
  simpl. rewrite IH, usageHistory_step.
  destruct e; reflexivity.
Qed.

(** C2. The history buffer never holds more than 20 samples; an append to
    a full buffer evicts exactly the oldest sample and an append to a buffer
    that is not full evicts nothing; after [n] appends the buffer is the last
    [min n 20] samples in their order, for appends of any samples and for
    the ticks of any run of the component. *)
Theorem history_sliding_window (parse : string -> ParseResult)
  (onLine : bool) (es : list Event) (samples : list UsageData)
  (x : UsageData) :
  let buf := appendAll samples [] in
  let ticks := recorded parse es (mount onLine) in
  (length buf <= 20)%nat /\
  length buf = Nat.min (length samples) 20 /\
  buf = drop (length samples - 20) samples /\
  appendAll (samples ++ [x]) []
  = (if decide (length samples < 20)%nat then buf else drop 1 buf) ++ [x] /\
  usageHistory (run parse es (mount onLine))
  = drop (length ticks - 20) ticks.
Proof.
  cbv zeta.
  assert (length (appendAll samples []) = Nat.min (length samples) 20) as Hlen.
  { rewrite appendAll_window, length_drop. unfold history_capacity. lia. }
  repeat split.
  - lia.
  - exact Hlen.
  - apply appendAll_window.
  - rewrite appendAll_snoc, appendHistory_fifo
      by (unfold history_capacity; lia).
    rewrite Hlen. unfold history_capacity.
    destruct (decide (Nat.min _ _ < _)%nat);
      destruct (decide (length samples < _)%nat); try lia; reflexivity.
  - rewrite usageHistory_run. unfold mount.
    rewrite usageHistory_insightEffect. simpl. apply appendAll_window.
Qed.

(** Twenty-five ticks: the buffer holds ticks 6 to 25. *)
Example history_25_ticks :
  appendAll (tick_samples 1 25) [] = tick_samples 6 20.
Proof. vm_compute. reflexivity. Qed.

(** ** Simulated temperature and voltage *)

(** C10 as stated does not hold: with both draws at 0.999 the values before
    rounding are 37.992 and 4.1994, [toFixed] prints 38.0 and 4.20, and the
    new temperature and voltage are the upper ends 38 and 4.2. *)
Lemma resample_reaches_upper_end :
  battery_ok battery_high_draws /\
  (temperature (updateBatteryInfo battery_high_draws initialStats) == 38)%Q /\
  (voltage (updateBatteryInfo battery_high_draws initialStats) == 42 # 10)%Q /\
  ~ ((30 <= temperature (updateBatteryInfo battery_high_draws initialStats) < 38)%Q
     /\ (36 # 10 <= voltage (updateBatteryInfo battery_high_draws initialStats)
                   < 42 # 10)%Q).
Proof.
  split; [|split; [|split]].
  - repeat split; vm_compute; discriminate.
  - vm_compute. reflexivity.
  - vm_compute. reflexivity.
  - intros [[_ H] _]. vm_compute in H. discriminate H.
Qed.

(** C10, amended. After a telemetry update the temperature is in the closed
    range [30, 38] and the voltage in the closed range [3.6, 4.2]. *)
Theorem resample_ranges (b : Battery) (prev : BatteryStats) :
  battery_ok b ->
  (30 <= temperature (updateBatteryInfo b prev) <= 38)%Q /\
  (36 # 10 <= voltage (updateBatteryInfo b prev) <= 42 # 10)%Q.
Proof.
  intros (_ & Ht & Hv). simpl. split.
  - apply sample_temperature_range. exact Ht.
  - apply sample_voltage_range. exact Hv.
Qed.

(** Both draws at 0.999 stay within the closed ranges. *)
Lemma resample_ranges_witness :
  battery_ok battery_high_draws /\
  (30 <= temperature (updateBatteryInfo battery_high_draws initialStats) <= 38)%Q /\
  (36 # 10 <= voltage (updateBatteryInfo battery_high_draws initialStats)
   <= 42 # 10)%Q.
Proof.
  assert (battery_ok battery_high_draws) as H.
  { repeat split; vm_compute; discriminate. }
  split; [exact H|].
  apply (resample_ranges battery_high_draws initialStats H).
Defined.

(** ** Insight debounce *)

Lemma insightEffect_fires (s : AppState) :
  isOnline s = true ->
  level_moved (lastFetchedLevel s) (level (stats s)) = true ->
  insightEffect s =
  mkApp (stats s) (insight s) true (usageHistory s)
        (Some (level (stats s))) true (pending s ++ [stats s])
        (S (fetchCount s)).
Proof.
  intros Hon Hmv. unfold insightEffect. rewrite Hon, Hmv. simpl.
  unfold_app. rewrite Hon. reflexivity.
Qed.

Lemma insightEffect_idle (s : AppState) :
  isOnline s && level_moved (lastFetchedLevel s) (level (stats s)) = false ->
  insightEffect s = s.
Proof. intros H. unfold insightEffect. rewrite H. reflexivity. Qed.

Lemma insightEffect_inv (s : AppState) :
  (lastFetchedLevel s = None <-> fetchCount s = 0%nat) ->
  (loadingInsight s = true -> pending s <> []) ->
  debounce_inv (insightEffect s).
Proof.
  intros Hcount Hload.
  destruct (isOnline s) eqn:Hon.
  - destruct (level_moved (lastFetchedLevel s) (level (stats s))) eqn:Hmv.
    + rewrite insightEffect_fires by assumption.
      repeat split; simpl; try discriminate.
      * intros _. eexists. split; [reflexivity|].
        unfold JsNum.Math_abs. lia.
      * intros _ H. apply app_eq_nil in H as [_ H]. discriminate H.
    + rewrite insightEffect_idle by (rewrite Hon, Hmv; reflexivity).
      repeat split; try tauto.
      intros _. unfold level_moved in Hmv.
      destruct (lastFetchedLevel s) as [l0|]; [|discriminate].
      exists l0. split; [reflexivity|]. lia.
  - rewrite insightEffect_idle by (rewrite Hon; reflexivity).
    repeat split; try tauto. rewrite Hon. discriminate.
Qed.

Lemma mount_inv (onLine : bool) : debounce_inv (mount onLine).
Proof.
  unfold mount. apply insightEffect_inv; simpl; [tauto | discriminate].
Qed.

Lemma step_inv (parse : string -> ParseResult) (e : Event) (s : AppState) :
  debounce_inv s -> debounce_inv (step parse e s).
Proof.
  intros (Hon & Hcount & Hload). destruct e as [b|now|online| |i o]; simpl.
  - destruct (_ =? _) eqn:Hlv.
    + apply Z.eqb_eq in Hlv. simpl in Hlv.
      repeat split; simpl; try tauto. rewrite Hlv. exact Hon.
    + apply insightEffect_inv; simpl; assumption.
  - repeat split; simpl; tauto.
  - destruct (Bool.eqb online (isOnline s)) eqn:Heq.
    + apply Bool.eqb_prop in Heq. subst online.
      repeat split; simpl; tauto.
    + apply insightEffect_inv; simpl; assumption.
  - unfold deepAnalyzeDisabled.
    destruct (loadingInsight s) eqn:Hl; simpl; [repeat split; tauto|].
    destruct (isOnline s) eqn:Ho; simpl; [|repeat split; try tauto].
    + unfold fetchInsights. rewrite Ho. simpl.
      destruct (Hon eq_refl) as (l0 & Hl0 & Hd).
      repeat split; simpl; try (rewrite Hl0; discriminate); try discriminate.
      * intros _. exists l0. split; assumption.
      * intros _ H. apply app_eq_nil in H as [_ H]. discriminate H.
    + rewrite Ho. discriminate.
    + rewrite Hl. discriminate.
  - destruct (pending s !! i) as [request|] eqn:Hp; [|repeat split; tauto].
    unfold fetchInsights_resume.
    destruct (truthy _); repeat split; simpl; try tauto; discriminate.
Qed.

Lemma run_inv (parse : string -> ParseResult) (onLine : bool)
  (es : list Event) :
  debounce_inv (run parse es (mount onLine)).
Proof.
  apply (run_invariant parse debounce_inv (fun _ => True)).
  - intros e s _. apply step_inv.
  - apply Forall_forall. intros; exact I.
  - apply mount_inv.
Qed.

(** The rule of the effect, in any state that is online: it makes a call
    exactly when the last requested level is unset or at least 5 points away
    from the displayed level. *)
Lemma insightEffect_threshold (s : AppState) :
  isOnline s = true ->
  (triggers_fetch s (insightEffect s) <->
   lastFetchedLevel s = None \/
   exists l0, lastFetchedLevel s = Some l0
              /\ 5 <= Z.abs (level (stats s) - l0)).
Proof.
  intros Hon. unfold triggers_fetch.
  destruct (level_moved (lastFetchedLevel s) (level (stats s))) eqn:Hmv.
  - rewrite insightEffect_fires by assumption. simpl.
    split; [intros _ | reflexivity].
    destruct (lastFetchedLevel s) as [l0|]; [right | left; reflexivity].
    exists l0. split; [reflexivity|]. simpl in Hmv.
    unfold JsNum.Math_abs in Hmv. lia.
  - rewrite insightEffect_idle by (rewrite Hon, Hmv; reflexivity).
    split; [lia|].
    destruct (lastFetchedLevel s) as [l0|]; [|discriminate].
    simpl in Hmv. unfold JsNum.Math_abs in Hmv.
    intros [H | (l & Hl & Hge)]; [discriminate|].
    injection Hl as <-. lia.
Qed.

Lemma and_snoc3 (A B C D : Prop) : A /\ B /\ C -> D -> A /\ B /\ C /\ D.
Proof. tauto. Qed.

(** C1. In every state the component reaches in which it is online, a
    telemetry update to level [l1] makes a call of [getBatteryInsights]
    exactly when no call was ever made or [l1] is at least 5 points away from
    the level [l0] recorded at the last automatic call; a call records [l1]
    as the new [l0] and leaves one more request in flight, and no call leaves
    the record and the requests as they were.  The effect that decides this
    follows the same rule in any online state [s0], with the unset record in
    the place of no call ever made. *)
Theorem debounce_threshold (parse : string -> ParseResult) (onLine : bool)
  (es : list Event) (b : Battery) (s0 : AppState) :
  let s := run parse es (mount onLine) in
  let s' := step parse (BatteryChange b) s in
  let l1 := JsNum.Math_round (b_level b * 100) in
  isOnline s = true ->
  isOnline s0 = true ->
  (triggers_fetch s s' <->
   fetchCount s = 0%nat \/
   exists l0, lastFetchedLevel s = Some l0 /\ 5 <= Z.abs (l1 - l0)) /\
  (triggers_fetch s s' ->
   lastFetchedLevel s' = Some l1 /\ pending s' = pending s ++ [stats s']) /\
  (~ triggers_fetch s s' ->
   lastFetchedLevel s' = lastFetchedLevel s /\ pending s' = pending s
   /\ fetchCount s' = fetchCount s) /\
  (triggers_fetch s0 (insightEffect s0) <->
   lastFetchedLevel s0 = None \/
   exists l0, lastFetchedLevel s0 = Some l0
              /\ 5 <= Z.abs (level (stats s0) - l0)).
Proof.
  intros s s' l1 Hon Hon0.
  destruct (run_inv parse onLine es) as (Hnear & Hcount & _).
  fold s in Hnear, Hcount.
  destruct (Hnear Hon) as (l0 & Hl0 & Hd).
  assert (fetchCount s <> 0%nat) as Hpos.
  { intros H. apply Hcount in H. congruence. }
  unfold JsNum.Math_abs in Hd.
  apply and_snoc3; [|apply insightEffect_threshold; exact Hon0].
  subst s'. unfold triggers_fetch. simpl.
  change (JsNum.Math_round (b_level b * 100)) with l1.
  destruct (l1 =? level (stats s)) eqn:Hlv.
  - apply Z.eqb_eq in Hlv. simpl.
    repeat split; try lia; try reflexivity.
    intros [H | (l & Hl & Hge)]; [contradiction|].
    rewrite Hl0 in Hl. injection Hl as <-. lia.
  - destruct (5 <=? Z.abs (l0 - l1)) eqn:Hmv.
    + rewrite insightEffect_fires
        by (simpl; try assumption; rewrite Hl0; exact Hmv).
      simpl. repeat split; try reflexivity; try lia.
      right. exists l0. split; [assumption|]. lia.
    + rewrite insightEffect_idle
        by (simpl; rewrite Hon, Hl0; simpl; exact Hmv).
      simpl. repeat split; try reflexivity; try lia.
      intros [H | (l & Hl & Hge)]; [contradiction|].
      rewrite Hl0 in Hl. injection Hl as <-. lia.
Qed.

(** After mounting online the update from 100 to 94 makes a call, and so
    does the effect of the first render. *)
Lemma debounce_threshold_witness :
  isOnline (run JSON.parse [] (mount true)) = true /\
  isOnline (initialState true) = true /\
  triggers_fetch (mount true)
    (step JSON.parse (BatteryChange (battery_at (94 # 100))) (mount true)) /\
  triggers_fetch (initialState true) (insightEffect (initialState true)).
Proof.
  assert (isOnline (run JSON.parse [] (mount true)) = true) as H
    by reflexivity.
  assert (isOnline (initialState true) = true) as H0 by reflexivity.
  split; [exact H|]. split; [exact H0|].
  destruct (debounce_threshold JSON.parse true [] (battery_at (94 # 100))
              (initialState true) H H0) as (Hrun & _ & _ & Heff).
  split.
  - apply Hrun. right. exists 100.
    split; [reflexivity | vm_compute; discriminate].
  - apply Heff. left. reflexivity.
Defined.

(** The run of the specification: mounting online requests at level 100;
    94 requests, 91 does not, 88 requests. *)
Example debounce_94_91_88 :
  let s0 := mount true in
  let s1 := run JSON.parse (take 1 drain_94_91_88) s0 in
  let s2 := run JSON.parse (take 2 drain_94_91_88) s0 in
  let s3 := run JSON.parse (take 3 drain_94_91_88) s0 in
  map fetchCount [s0; s1; s2; s3] = [1; 2; 2; 3]%nat /\
  map lastFetchedLevel [s0; s1; s2; s3]
  = [Some 100; Some 94; Some 94; Some 88].
Proof. vm_compute. split; reflexivity. Qed.

(** ** Connectivity flag *)

(** C3. While the connectivity flag is false no event other than the one
    that raises the flag makes a call of [getBatteryInsights]: a telemetry
    update makes none however far the level moved, the effect and
    [fetchInsights] return at once, and a click on Deep Analyze changes
    nothing. *)
Theorem offline_no_fetch (parse : string -> ParseResult) (s : AppState)
  (e : Event) :
  isOnline s = false ->
  goes_online e = false ->
  fetchCount (step parse e s) = fetchCount s /\
  (forall b, pending (step parse (BatteryChange b) s) = pending s) /\
  insightEffect s = s /\
  fetchInsights s = s /\
  step parse DeepAnalyzeClick s = s.
Proof.
  intros Hoff He.
  assert (forall s1, isOnline s1 = false -> insightEffect s1 = s1) as Heff.
  { intros s1 H. apply insightEffect_idle. rewrite H. reflexivity. }
  repeat split.
  - destruct e as [b|now|[|]| |i o]; simpl; try discriminate.
    + destruct (_ =? _); [reflexivity|]. rewrite Heff; [reflexivity|exact Hoff].
    + reflexivity.
    + rewrite Hoff. reflexivity.
    + unfold deepAnalyzeDisabled. rewrite Hoff, orb_true_r. reflexivity.
    + destruct (pending s !! i); [|reflexivity].
      unfold fetchInsights_resume. destruct (truthy _); reflexivity.
  - intros b. simpl. destruct (_ =? _); [reflexivity|].
    rewrite Heff; [reflexivity|exact Hoff].
  - apply Heff, Hoff.
  - unfold fetchInsights. rewrite Hoff. reflexivity.
  - simpl. unfold deepAnalyzeDisabled. rewrite Hoff, orb_true_r. reflexivity.
Qed.

(** After the connection dropped at level 100 the update to level 50 makes
    no call. *)
Lemma offline_no_fetch_witness :
  let s := run JSON.parse [NetworkChange false] (mount true) in
  let e := BatteryChange (battery_at (50 # 100)) in
  isOnline s = false /\ goes_online e = false /\
  lastFetchedLevel s = Some 100 /\
  level (stats (step JSON.parse e s)) = 50 /\
  fetchCount (step JSON.parse e s) = fetchCount s.
Proof.
  cbv zeta.
  split; [reflexivity|]. split; [reflexivity|]. split; [reflexivity|].
  split; [vm_compute; reflexivity|].
  apply (offline_no_fetch JSON.parse
           (run JSON.parse [NetworkChange false] (mount true))
           (BatteryChange (battery_at (50 # 100))) eq_refl eq_refl).
Defined.

(** ** In-flight guard *)



(** C8. The automatic path does not look at the loading flag: in every state
    the component reaches that is online with the loading flag true, a
    telemetry update at least 5 points away from the last requested level
    makes a new call, which leaves at least two requests in flight, while a
    click on Deep Analyze in that state does nothing. *)
Theorem automatic_fetch_ignores_loading (parse : string -> ParseResult)
  (onLine : bool) (es : list Event) (b : Battery) (l0 : Z) :
  let s := run parse es (mount onLine) in
  let s' := step parse (BatteryChange b) s in
  isOnline s = true ->
  loadingInsight s = true ->
  lastFetchedLevel s = Some l0 ->
  5 <= Z.abs (JsNum.Math_round (b_level b * 100) - l0) ->
  triggers_fetch s s' /\
  pending s' = pending s ++ [stats s'] /\
  (2 <= length (pending s'))%nat /\
  loadingInsight s' = true /\
  step parse DeepAnalyzeClick s = s.
Proof.
  intros s s' Hon Hload Hl0 Hfar.
  destruct (run_inv parse onLine es) as (Hnear & _ & Hpend).
  fold s in Hnear, Hpend.
  destruct (Hnear Hon) as (l & Hl & Hd). rewrite Hl0 in Hl. injection Hl as <-.
  unfold JsNum.Math_abs in Hd. specialize (Hpend Hload).
  assert (s' = mkApp (updateBatteryInfo b (stats s)) (insight s) true
                 (usageHistory s)
                 (Some (JsNum.Math_round (b_level b * 100))) true
                 (pending s ++ [updateBatteryInfo b (stats s)])
                 (S (fetchCount s))) as ->.
  { subst s'. simpl.
    destruct (_ =? _) eqn:Hlv; [apply Z.eqb_eq in Hlv; lia|].
    rewrite insightEffect_fires; [reflexivity | exact Hon |].
    simpl. rewrite Hl0. simpl. unfold JsNum.Math_abs. lia. }
  unfold triggers_fetch. simpl. repeat split.
  - rewrite length_app. simpl. destruct (pending s); [contradiction|].
    simpl. lia.
  - unfold deepAnalyzeDisabled. rewrite Hload. reflexivity.
Qed.

(** Right after mounting online the first request is in flight when the
    level drops from 100 to 94, and a second one starts. *)
Lemma automatic_fetch_ignores_loading_witness :
  let s := run JSON.parse [] (mount true) in
  let s' := step JSON.parse (BatteryChange (battery_at (94 # 100))) s in
  isOnline s = true /\ loadingInsight s = true /\
  lastFetchedLevel s = Some 100 /\
  triggers_fetch s s' /\ (2 <= length (pending s'))%nat.
Proof.
  cbv zeta.
  split; [reflexivity|]. split; [reflexivity|]. split; [reflexivity|].
  destruct (automatic_fetch_ignores_loading JSON.parse true []
              (battery_at (94 # 100)) 100 eq_refl eq_refl eq_refl)
    as (Ht & _ & Hn & _).
  - vm_compute. discriminate.
  - split; [exact Ht | exact Hn].
Defined.

(** ** Insight client and the insight snapshot *)

Lemma truthy_not_null (v : JsValue) : truthy v = true -> is_null v = false.
Proof. destruct v; simpl; congruence. Qed.

Lemma insight_insightEffect (s : AppState) :
  insight (insightEffect s) = insight s.
Proof. unfold_app. split_ifs; reflexivity. Qed.

(** The only transition that writes the insight snapshot is the settling of
    a request, and only with truthy data. *)
Lemma insight_step (parse : string -> ParseResult) (e : Event)
  (s : AppState) :
  insight (step parse e s) =
  match e with
  | FetchSettled i o =>
      match pending s !! i with
      | Some request =>
          let data := getBatteryInsights parse request o in
          if truthy data then data else insight s
      | None => insight s
      end
  | _ => insight s
  end.
Proof.
  destruct e; simpl; try rewrite insight_insightEffect;
    unfold_app; split_ifs; try rewrite insight_insightEffect; reflexivity.
Qed.

(** C4. A fetch that fails, by a rejected request, a response without
    text, an empty text or a text that is not JSON, resolves to [null] and
    leaves the insight snapshot exactly as it was. *)
Theorem failed_fetch_keeps_insight (parse : string -> ParseResult)
  (s : AppState) (i : nat) (o : ServiceOutcome) :
  (o = Rejected \/ o = Responded None \/ o = Responded (Some EmptyString)
   \/ exists t, o = Responded (Some t) /\ parse t = SyntaxError) ->
  (forall request, getBatteryInsights parse request o = JNull) /\
  insight (step parse (FetchSettled i o) s) = insight s.
Proof.
  intros Hfail.
  assert (forall request, getBatteryInsights parse request o = JNull) as Hnull.
  { intros request.
    destruct Hfail as [-> | [-> | [-> | (t & -> & Ht)]]]; try reflexivity.
    simpl. rewrite Ht. destruct (String.eqb t _); reflexivity. }
  split; [exact Hnull|].
  rewrite insight_step. destruct (pending s !! i); [|reflexivity].
  cbv zeta. rewrite Hnull. reflexivity.
Qed.

(** With an insight on display and a second request in flight, an answer
    that is not JSON leaves the insight in place. *)
Lemma failed_fetch_keeps_insight_witness :
  let o := Responded (Some "Service unavailable"%string) in
  JSON.parse "Service unavailable" = SyntaxError /\
  pending insight_shown !! 0%nat = Some initialStats /\
  is_BatteryInsight (insight insight_shown) = true /\
  insight (step JSON.parse (FetchSettled 0 o) insight_shown)
  = insight insight_shown.
Proof.
  cbv zeta.
  assert (JSON.parse "Service unavailable" = SyntaxError) as H
    by (vm_compute; reflexivity).
  split; [exact H|]. split; [reflexivity|].
  split; [vm_compute; reflexivity|].
  apply (failed_fetch_keeps_insight JSON.parse insight_shown 0
           (Responded (Some "Service unavailable"%string))).
  right. right. right. eexists. split; [reflexivity | exact H].
Defined.

(** C5 as stated does not hold: with an insight on display, a request that
    is rejected settles and the insight is still there. *)
Lemma failed_fetch_does_not_clear :
  pending insight_shown !! 0%nat = Some initialStats /\
  getBatteryInsights JSON.parse initialStats Rejected = JNull /\
  is_null (insight insight_shown) = false /\
  insight (step JSON.parse (FetchSettled 0 Rejected) insight_shown) <> JNull.
Proof.
  split; [reflexivity|]. split; [reflexivity|].
  split; [vm_compute; reflexivity|].
  vm_compute. discriminate.
Qed.

(** C5, amended. No event clears the insight snapshot: an insight that is
    present before an event, a failed fetch included, is present after
    it. *)
Theorem insight_never_cleared (parse : string -> ParseResult) (e : Event)
  (s : AppState) :
  is_null (insight s) = false ->
  is_null (insight (step parse e s)) = false.
Proof.
  intros H. rewrite insight_step.
  destruct e as [b|now|online| |i o]; try exact H.
  destruct (pending s !! i) as [request|]; [|exact H].
  cbv zeta. destruct (truthy _) eqn:Ht; [|exact H].
  apply truthy_not_null. exact Ht.
Qed.

(** With an insight on display, a rejected request leaves it present. *)
Lemma insight_never_cleared_witness :
  is_null (insight insight_shown) = false /\
  is_null (insight (step JSON.parse (FetchSettled 0 Rejected) insight_shown))
  = false.
Proof.
  assert (is_null (insight insight_shown) = false) as H
    by (vm_compute; reflexivity).
  split; [exact H|].
  apply (insight_never_cleared JSON.parse (FetchSettled 0 Rejected)
           insight_shown H).
Defined.

(** C6 as stated does not hold: the text of an empty object, and a text
    with only two tips, come back as they were parsed, not as [null], and do
    not have the shape of [BatteryInsight]. *)
Lemma schema_not_checked :
  let r := getBatteryInsights JSON.parse initialStats (Responded (Some "{}"%string)) in
  let r2 := getBatteryInsights JSON.parse initialStats
              (Responded (Some two_tips_report)) in
  r = JObj [] /\ is_null r = false /\ is_BatteryInsight r = false /\
  is_null r2 = false /\ is_BatteryInsight r2 = false.
Proof. vm_compute. repeat split; reflexivity. Qed.

(** C6, amended. [getBatteryInsights] returns [null] exactly when the request
    is rejected, the response has no text or an empty one, or the text is not
    JSON or is the JSON [null]; every other text comes back as the value it
    parses to, whatever its shape. *)
Theorem getBatteryInsights_null_iff (parse : string -> ParseResult)
  (request : BatteryStats) (o : ServiceOutcome) (t : string) (v : JsValue) :
  String.eqb t EmptyString = false ->
  parse t = Parsed v ->
  getBatteryInsights parse request (Responded (Some t)) = v /\
  (getBatteryInsights parse request o = JNull <->
   o = Rejected \/ o = Responded None \/ o = Responded (Some EmptyString)
   \/ exists t', o = Responded (Some t')
                 /\ (parse t' = SyntaxError \/ parse t' = Parsed JNull)).
Proof.
  intros Ht Hv. split.
  - simpl. rewrite Ht, Hv. reflexivity.
  - destruct o as [|[t'|]]; simpl.
    + split; [intros _; left; reflexivity | reflexivity].
    + destruct (String.eqb t' EmptyString) eqn:He.
      * apply String.eqb_eq in He. subst t'.
        split; [intros _; right; right; left; reflexivity | reflexivity].
      * apply String.eqb_neq in He. split.
        -- intros H. right. right. right. exists t'. split; [reflexivity|].
           destruct (parse t'); [left; reflexivity | right; congruence].
        -- intros [H | [H | [H | (t'' & H & Hp)]]]; try discriminate.
           ++ congruence.
           ++ injection H as <-. destruct Hp as [-> | ->]; reflexivity.
    + split; [intros _; right; left; reflexivity | reflexivity].
Qed.

(** The text of the empty object comes back as the empty object. *)
Lemma getBatteryInsights_null_iff_witness :
  String.eqb "{}" EmptyString = false /\
  JSON.parse "{}" = Parsed (JObj []) /\
  getBatteryInsights JSON.parse initialStats (Responded (Some "{}"%string)) = JObj [].
Proof.
  assert (JSON.parse "{}" = Parsed (JObj [])) as H by (vm_compute; reflexivity).
  split; [reflexivity|]. split; [exact H|].
  apply (getBatteryInsights_null_iff JSON.parse initialStats Rejected "{}"
           (JObj []) eq_refl H).
Defined.

(** * Further properties of the code *)

(** ** Battery gauge *)

(** The fill colour and the glow of the gauge always come from the same
    band: green above 60, amber above 20 and up to 60, red at 20 and
    below. *)
Theorem gauge_bands (lvl : Z) :
  (60 < lvl
   /\ BatteryGauge.getColor lvl = "bg-emerald-500"%string
   /\ BatteryGauge.getShadow lvl
      = "shadow-[0_0_20px_rgba(16,185,129,0.4)]"%string) \/
  (20 < lvl <= 60
   /\ BatteryGauge.getColor lvl = "bg-amber-500"%string
   /\ BatteryGauge.getShadow lvl
      = "shadow-[0_0_20px_rgba(245,158,11,0.4)]"%string) \/
  (lvl <= 20
   /\ BatteryGauge.getColor lvl = "bg-rose-500"%string
   /\ BatteryGauge.getShadow lvl
      = "shadow-[0_0_20px_rgba(244,63,94,0.4)]"%string).
Proof.
  unfold BatteryGauge.getColor, BatteryGauge.getShadow.
  destruct (60 <? lvl) eqn:H60; [left; split; [lia | split; reflexivity]|].
  destruct (20 <? lvl) eqn:H20; [right; left | right; right];
    (split; [lia | split; reflexivity]).
Qed.

(** ** Rounding of what is shown *)


Lemma Math_round_minutes (n : Z) :
  JsNum.Math_round (inject_Z n / 60) = (n + 30) / 60.
Proof.
  unfold JsNum.Math_round.
  rewrite (Qfloor_comp _ ((n + 30) # 60)); [reflexivity|].
  unfold Qeq, Qdiv, Qmult, Qplus, Qinv, inject_Z. simpl. lia.
Qed.

(** The Full Charge ETA shows [m min] exactly when the battery is charging
    with a finite charging time within half a minute of [m] minutes (the
    half rounds up); otherwise it shows [N/A]. *)
Theorem fullChargeEta_minutes (st : BatteryStats) (m : Z) :
  fullChargeEta st = Some m <->
  charging st = true /\
  exists n, chargingTime st = Secs n /\ 60 * m - 30 <= n < 60 * m + 30.
Proof.
  unfold fullChargeEta. destruct (charging st); [|split; [discriminate|]].
  - destruct (chargingTime st) as [n|].
    + rewrite Math_round_minutes. split.
      * intros H. injection H as <-. split; [reflexivity|].
        exists n. split; [reflexivity|].
        pose proof (Z.div_mod (n + 30) 60). pose proof (Z.mod_pos_bound (n + 30) 60).
        lia.
      * intros (_ & n' & Hn & Hb). injection Hn as <-. f_equal.
        symmetry. apply (Z.div_unique _ _ _ (n + 30 - 60 * m)); lia.
    + split; [discriminate|]. intros (_ & n & Hn & _). discriminate Hn.
  - intros (H & _). discriminate H.
Qed.



(** ** Connectivity *)

Lemma isOnline_insightEffect (s : AppState) :
  isOnline (insightEffect s) = isOnline s.
Proof. unfold_app. split_ifs; reflexivity. Qed.

Lemma isOnline_step (parse : string -> ParseResult) (e : Event)
  (s : AppState) :
  isOnline (step parse e s) =
  match e with
  | NetworkChange online => online
  | _ => isOnline s
  end.
Proof.
  destruct e; simpl; try rewrite isOnline_insightEffect;
    unfold_app; split_ifs; try rewrite isOnline_insightEffect; reflexivity.
Qed.

Lemma isOnline_run (parse : string -> ParseResult) (es : list Event)
  (s : AppState) :
  isOnline (run parse es s) = last_network es (isOnline s).
Proof.
  revert s. induction es as [|e es IH]; intros s; [reflexivity|].
  simpl. rewrite IH, isOnline_step. destruct e; reflexivity.
Qed.

(** After any run the connectivity flag is the value of the last [online] or
    [offline] event, or [navigator.onLine] as read at the first render when
    there was none; no other event touches it. *)
Theorem connectivity_mirrors_events (parse : string -> ParseResult)
  (onLine : bool) (es : list Event) :
  isOnline (run parse es (mount onLine)) = last_network es onLine.
Proof.
  rewrite isOnline_run. unfold mount. rewrite isOnline_insightEffect.
  reflexivity.
Qed.

Lemma app_state_eta (s : AppState) :
  mkApp (stats s) (insight s) (loadingInsight s) (usageHistory s)
        (lastFetchedLevel s) (isOnline s) (pending s) (fetchCount s) = s.
Proof. destruct s; reflexivity. Qed.

(** When the connection comes back, the component makes a call exactly when
    it never made an automatic one or the level is at least 5 points away
    from the last requested level; the call is made with the stats on
    display and records their level.  An [offline] event while offline
    changes nothing. *)
Theorem reconnect_catches_up (parse : string -> ParseResult) (s : AppState) :
  isOnline s = false ->
  let s' := step parse (NetworkChange true) s in
  (triggers_fetch s s' <->
   lastFetchedLevel s = None \/
   exists l0, lastFetchedLevel s = Some l0
              /\ 5 <= Z.abs (level (stats s) - l0)) /\
  (triggers_fetch s s' ->
   pending s' = pending s ++ [stats s]
   /\ lastFetchedLevel s' = Some (level (stats s))) /\
  isOnline s' = true /\
  step parse (NetworkChange false) s = s.
Proof.
  intros Hoff s'. subst s'. simpl. rewrite Hoff. simpl.
  pose proof (insightEffect_threshold (setIsOnline true s) eq_refl) as Hrule.
  unfold triggers_fetch in *. simpl in Hrule.
  split; [exact Hrule|]. split; [|split].
  - intros Ht.
    destruct (level_moved (lastFetchedLevel s) (level (stats s))) eqn:Hmv.
    + rewrite insightEffect_fires by (simpl; auto). simpl. split; reflexivity.
    + rewrite insightEffect_idle in Ht by (simpl; exact Hmv).
      simpl in Ht. lia.
  - rewrite isOnline_insightEffect. reflexivity.
  - unfold setIsOnline. rewrite <- Hoff. apply app_state_eta.
Qed.

(** The connection drops at level 100, the level falls to 50, and the
    connection comes back: a call is made. *)
Lemma reconnect_catches_up_witness :
  let s := run JSON.parse
             [NetworkChange false; BatteryChange (battery_at (50 # 100))]
             (mount true) in
  isOnline s = false /\
  triggers_fetch s (step JSON.parse (NetworkChange true) s).
Proof.
  cbv zeta.
  assert (isOnline (run JSON.parse
             [NetworkChange false; BatteryChange (battery_at (50 # 100))]
             (mount true)) = false) as H by reflexivity.
  split; [exact H|].
  apply (reconnect_catches_up JSON.parse _ H).
  right. exists 100. split; [reflexivity | vm_compute; discriminate].
Defined.

(** ** Manual analysis and the loading flag *)

(** When the Deep Analyze button is enabled (online, not loading) a click
    always makes a call, however little the level moved; the call is made
    with the stats on display, raises the loading flag and leaves the last
    requested level, the stats and the insight as they were. *)
Theorem deep_analyze_fetches_when_enabled (parse : string -> ParseResult)
  (s : AppState) :
  isOnline s = true ->
  loadingInsight s = false ->
  let s' := step parse DeepAnalyzeClick s in
  triggers_fetch s s' /\
  pending s' = pending s ++ [stats s] /\
  loadingInsight s' = true /\
  lastFetchedLevel s' = lastFetchedLevel s /\
  stats s' = stats s /\
  insight s' = insight s.
Proof.
  intros Hon Hl. simpl. unfold deepAnalyzeDisabled, fetchInsights.
  rewrite Hon, Hl. simpl. unfold triggers_fetch. simpl.
  repeat split; reflexivity.
Qed.

(** The first request was answered; a click at the unchanged level 100 makes
    a second call. *)
Lemma deep_analyze_fetches_when_enabled_witness :
  let s := run JSON.parse [FetchSettled 0 Rejected] (mount true) in
  isOnline s = true /\ loadingInsight s = false /\
  lastFetchedLevel s = Some (level (stats s)) /\
  triggers_fetch s (step JSON.parse DeepAnalyzeClick s).
Proof.
  cbv zeta. split; [reflexivity|]. split; [reflexivity|].
  split; [reflexivity|].
  apply (deep_analyze_fetches_when_enabled JSON.parse
           (run JSON.parse [FetchSettled 0 Rejected] (mount true))
           eq_refl eq_refl).
Defined.

(** The loading flag is a flag, not a count: when any request in flight
    settles, the flag drops although the other requests are still in flight,
    and while online the Deep Analyze button is enabled again. *)
Theorem loading_clears_on_first_settle (parse : string -> ParseResult)
  (s : AppState) (i : nat) (o : ServiceOutcome) :
  (i < length (pending s))%nat ->
  (2 <= length (pending s))%nat ->
  let s' := step parse (FetchSettled i o) s in
  loadingInsight s' = false /\
  pending s' = delete i (pending s) /\
  pending s' <> [] /\
  deepAnalyzeDisabled s' = negb (isOnline s).
Proof.
  intros Hi H2. simpl.
  destruct (pending s !! i) as [request|] eqn:Hp.
  - unfold fetchInsights_resume, deepAnalyzeDisabled.
    assert (delete i (pending s) <> []) as Hne.
    { intros Hnil. apply (f_equal length) in Hnil.
      rewrite length_delete in Hnil by (rewrite Hp; eauto). simpl in Hnil. lia. }
    destruct (truthy _); simpl; repeat split; assumption.
  - apply lookup_ge_None in Hp. lia.
Qed.

(** Mounting online and dropping to level 94 leaves two requests in flight;
    when the first settles the flag drops with one still in flight. *)
Lemma loading_clears_on_first_settle_witness :
  let s := run JSON.parse [BatteryChange (battery_at (94 # 100))]
             (mount true) in
  let s' := step JSON.parse (FetchSettled 0 Rejected) s in
  length (pending s) = 2%nat /\
  loadingInsight s' = false /\ length (pending s') = 1%nat /\
  deepAnalyzeDisabled s' = false.
Proof.
  cbv zeta.
  assert (length (pending (run JSON.parse
            [BatteryChange (battery_at (94 # 100))] (mount true))) = 2%nat)
    as H by (vm_compute; reflexivity).
  split; [exact H|].
  destruct (loading_clears_on_first_settle JSON.parse
              (run JSON.parse [BatteryChange (battery_at (94 # 100))]
                   (mount true)) 0 Rejected) as (Hl & Hp & _ & Hd).
  - rewrite H. lia.
  - rewrite H. lia.
  - split; [exact Hl|]. split; [rewrite Hp; vm_compute; reflexivity|].
    rewrite Hd. vm_compute. reflexivity.
Defined.

(** ** What the requests and the chart carry *)

Lemma pending_insightEffect (s : AppState) :
  pending (insightEffect s) = pending s
  \/ pending (insightEffect s) = pending s ++ [stats s].
Proof. unfold_app. split_ifs; simpl; auto. Qed.

Lemma pending_step (parse : string -> ParseResult) (e : Event)
  (s : AppState) :
  pending (step parse e s) = pending s
  \/ pending (step parse e s) = pending s ++ [stats (step parse e s)]
  \/ exists i, pending (step parse e s) = delete i (pending s).
Proof.
  destruct e as [b|now|online| |i o]; simpl.
  - destruct (_ =? _); [auto|]. rewrite stats_insightEffect.
    destruct (pending_insightEffect (setStats (updateBatteryInfo b) s));
      auto.
  - auto.
  - destruct (Bool.eqb _ _); [auto|]. rewrite stats_insightEffect.
    destruct (pending_insightEffect (setIsOnline online s)); auto.
  - unfold_app. split_ifs; simpl; auto.
  - destruct (pending s !! i); [|auto]. right. right. exists i.
    unfold_app. split_ifs; reflexivity.
Qed.

(** If the stats on display always satisfy [P], so do the stats of every
    request in flight. *)
Lemma pending_invariant (parse : string -> ParseResult)
  (P : BatteryStats -> Prop) (e : Event) (s : AppState) :
  P (stats (step parse e s)) ->
  Forall P (pending s) ->
  Forall P (pending (step parse e s)).
Proof.
  intros Hs Hp.
  destruct (pending_step parse e s) as [-> | [-> | (i & ->)]].
  - exact Hp.
  - apply Forall_app. split; [exact Hp | repeat constructor; exact Hs].
  - apply Forall_delete. exact Hp.
Qed.

(** Nothing ever writes the [health] field: in every state the component
    reaches it is [Good], and every request in flight reports [Good] to the
    service, whatever the battery does. *)
Theorem health_always_good (parse : string -> ParseResult) (onLine : bool)
  (es : list Event) :
  let s := run parse es (mount onLine) in
  health (stats s) = Good /\
  Forall (fun request => health request = Good) (pending s).
Proof.
  cbv zeta.
  apply (run_invariant parse
           (fun s => health (stats s) = Good
                     /\ Forall (fun r => health r = Good) (pending s))
           (fun _ => True)).
  - intros e s _ [Hs Hp].
    assert (health (stats (step parse e s)) = Good) as Hs'.
    { rewrite stats_step. destruct e; exact Hs. }
    split; [exact Hs'|]. apply pending_invariant; assumption.
  - apply Forall_forall. intros; exact I.
  - unfold mount. rewrite stats_insightEffect.
    split; [reflexivity|].
    destruct (pending_insightEffect (initialState onLine)) as [-> | ->];
      simpl; repeat constructor.
Qed.

Lemma appendHistory_Forall (P : UsageData -> Prop) (x : UsageData)
  (prev : list UsageData) :
  P x -> Forall P prev -> Forall P (appendHistory x prev).
Proof.
  intros Hx Hp. unfold appendHistory. cbv zeta.
  assert (Forall P (prev ++ [x])) as H
    by (apply Forall_app; split; [exact Hp | repeat constructor; exact Hx]).
  destruct (decide _); [apply Forall_drop|]; exact H.
Qed.

(** With battery levels in [0, 1], every sample in the history buffer, and
    the level of every request in flight, is a level between 0 and 100: the
    chart never leaves its fixed range. *)
Theorem history_samples_in_range (parse : string -> ParseResult)
  (onLine : bool) (es : list Event) :
  Forall telemetry_ok es ->
  let s := run parse es (mount onLine) in
  Forall (fun u => 0 <= usage_level u <= 100) (usageHistory s) /\
  Forall (fun request => 0 <= level request <= 100) (pending s).
Proof.
  intros Hes. cbv zeta.
  pose (P := fun s : AppState =>
               0 <= level (stats s) <= 100
               /\ Forall (fun u => 0 <= usage_level u <= 100) (usageHistory s)
               /\ Forall (fun r => 0 <= level r <= 100) (pending s)).
  enough (P (run parse es (mount onLine))) as (_ & Hh & Hp)
      by (split; assumption).
  apply (run_invariant parse P telemetry_ok); [| exact Hes |]; unfold P.
  - intros e s He (Hl & Hh & Hp).
    assert (0 <= level (stats (step parse e s)) <= 100) as Hl'.
    { rewrite stats_step. destruct e; try exact Hl.
      apply updateBatteryInfo_level_range. exact He. }
    split; [exact Hl'|]. split; [|apply pending_invariant; assumption].
    rewrite usageHistory_step. destruct e; try exact Hh.
    apply appendHistory_Forall; [exact Hl | exact Hh].
  - unfold mount. rewrite stats_insightEffect, usageHistory_insightEffect.
    simpl. split; [lia|]. split; [constructor|].
    destruct (pending_insightEffect (initialState onLine)) as [-> | ->];
      simpl; repeat constructor; simpl; lia.
Qed.

(** The run 94, 91, 88 with a tick after it. *)
Lemma history_samples_in_range_witness :
  let es := drain_94_91_88 ++ [HistoryTick "10:42"%string] in
  Forall telemetry_ok es /\
  Forall (fun u => 0 <= usage_level u <= 100)
         (usageHistory (run JSON.parse es (mount true))).
Proof.
  cbv zeta.
  assert (Forall telemetry_ok (drain_94_91_88 ++ [HistoryTick "10:42"%string]))
    as H.
  { repeat constructor; vm_compute; discriminate. }
  split; [exact H|].
  apply (history_samples_in_range JSON.parse true _ H).
Defined.

(** ** The insight box *)

Lemma is_null_spec (v : JsValue) : is_null v = true -> v = JNull.
Proof. destruct v; simpl; congruence. Qed.

Lemma member_is_inv (p : JsValue -> bool) (k : string)
  (members : list (string * JsValue)) :
  member_is p k members = true ->
  exists v, get_member k members = Some v /\ p v = true.
Proof.
  unfold member_is. destruct (get_member k members) as [v|]; [|discriminate].
  intros H. exists v. split; [reflexivity | exact H].
Qed.

Lemma is_BatteryInsight_shape (v : JsValue) :
  is_BatteryInsight v = true ->
  truthy v = true /\
  exists a b c x y z,
    insight_field v "status" = Some (JStr a)
    /\ insight_field v "recommendation" = Some (JStr b)
    /\ insight_field v "estimatedLifeRemaining" = Some (JStr c)
    /\ insight_field v "optimizationTips"
       = Some (JArr [JStr x; JStr y; JStr z]).
Proof.
  destruct v as [| | | | |members]; try discriminate. simpl.
  rewrite !andb_true_iff. intros [[[Hs Hr] He] Ht].
  apply member_is_inv in Hs as (vs & Hs & Ps).
  apply member_is_inv in Hr as (vr & Hr & Pr).
  apply member_is_inv in He as (ve & He & Pe).
  apply member_is_inv in Ht as (vt & Ht & Pt).
  destruct vs as [| | |a| |]; try discriminate.
  destruct vr as [| | |b| |]; try discriminate.
  destruct ve as [| | |c| |]; try discriminate.
  destruct vt as [| | | |items|]; try discriminate.
  simpl in Pt. apply andb_true_iff in Pt as [Hstr Hlen].
  apply Nat.eqb_eq in Hlen.
  destruct items as [|x [|y [|z [|w items]]]]; try discriminate.
  simpl in Hstr. rewrite !andb_true_iff in Hstr.
  destruct Hstr as (Hx & Hy & Hz & _).
  destruct x; try discriminate. destruct y; try discriminate.
  destruct z; try discriminate.
  split; [reflexivity|]. do 6 eexists. repeat split; eassumption.
Qed.

(** The insight snapshot is [null] or truthy in every state the component
    reaches: an answer that parses to 0, [false] or the empty string is
    dropped like a failure, so the test [insight ?] of the page means that
    an answer was stored. *)
Theorem insight_null_or_truthy (parse : string -> ParseResult)
  (onLine : bool) (es : list Event) :
  let s := run parse es (mount onLine) in
  insight s = JNull \/ truthy (insight s) = true.
Proof.
  cbv zeta.
  apply (run_invariant parse
           (fun s => insight s = JNull \/ truthy (insight s) = true)
           (fun _ => True)).
  - intros e s _ H. rewrite insight_step.
    destruct e as [b|now|online| |i o]; try exact H.
    destruct (pending s !! i) as [request|]; [|exact H].
    cbv zeta.
    destruct (truthy (getBatteryInsights parse request o)) eqn:Ht;
      [right; exact Ht | exact H].
  - apply Forall_forall. intros; exact I.
  - unfold mount. rewrite insight_insightEffect. left. reflexivity.
Qed.

(** As long as every settled request answers with [null] or with a value of
    the shape of [BatteryInsight], the insight box never throws, and when it
    shows a report the three texts are strings and there are exactly three
    tip cards, numbered 1, 2, 3, each holding a string. *)
Theorem panel_shows_well_formed_reports (parse : string -> ParseResult)
  (onLine : bool) (es : list Event) :
  Forall (well_formed_answer parse) es ->
  match renderInsightPanel (run parse es (mount onLine)) with
  | PanelTypeError => False
  | Report st rc lf tips =>
      (exists a b c,
          st = Some (JStr a) /\ rc = Some (JStr b) /\ lf = Some (JStr c))
      /\ map fst tips = [1; 2; 3]
      /\ Forall (fun card => is_string (snd card) = true) tips
  | _ => True
  end.
Proof.
  intros Hes.
  assert (insight (run parse es (mount onLine)) = JNull
          \/ is_BatteryInsight (insight (run parse es (mount onLine))) = true)
    as Hinv.
  { apply (run_invariant parse
             (fun s => insight s = JNull \/ is_BatteryInsight (insight s) = true)
             (well_formed_answer parse)); [| exact Hes |].
    - intros e s He H. rewrite insight_step.
      destruct e as [b|now|online| |i o]; try exact H.
      destruct (pending s !! i) as [request|]; [|exact H].
      cbv zeta.
      destruct (truthy (getBatteryInsights parse request o)) eqn:Ht;
        [|exact H].
      destruct (He request) as [Hn | Hb]; [|right; exact Hb].
      apply is_null_spec in Hn. rewrite Hn in Ht. discriminate Ht.
    - unfold mount. rewrite insight_insightEffect. left. reflexivity. }
  unfold renderInsightPanel.
  destruct (loadingInsight _); [exact I|].
  destruct Hinv as [-> | Hb].
  - simpl. destruct (negb _); exact I.
  - apply is_BatteryInsight_shape in Hb
      as (-> & a & b & c & x & y & z & -> & -> & -> & ->).
    split; [exists a, b, c; repeat split|].
    split; [reflexivity | repeat constructor].
Qed.

(** The first request is answered by a report of the right shape. *)
Lemma panel_shows_well_formed_reports_witness :
  let es := [FetchSettled 0 (Responded (Some healthy_report))] in
  Forall (well_formed_answer JSON.parse) es /\
  renderInsightPanel (run JSON.parse es (mount true)) <> PanelTypeError.
Proof.
  cbv zeta.
  assert (Forall (well_formed_answer JSON.parse)
            [FetchSettled 0 (Responded (Some healthy_report))]) as H.
  { constructor; [|constructor].
    intros request. right. vm_compute. reflexivity. }
  split; [exact H|].
  pose proof (panel_shows_well_formed_reports JSON.parse true _ H) as Hp.
  intros Heq. rewrite Heq in Hp. exact Hp.
Defined.

(** An answer that is truthy but has no array under [optimizationTips] is
    stored as the insight, and the insight box then throws a [TypeError] on
    its first render after the request settled. *)
Theorem panel_throws_without_tips (parse : string -> ParseResult)
  (s : AppState) (i : nat) (o : ServiceOutcome) (request : BatteryStats) :
  pending s !! i = Some request ->
  truthy (getBatteryInsights parse request o) = true ->
  has_tips_array (getBatteryInsights parse request o) = false ->
  let s' := step parse (FetchSettled i o) s in
  insight s' = getBatteryInsights parse request o /\
  renderInsightPanel s' = PanelTypeError.
Proof.
  intros Hp Ht Ha. simpl. rewrite Hp.
  unfold fetchInsights_resume. rewrite Ht.
  unfold renderInsightPanel. simpl. rewrite Ht.
  split; [reflexivity|].
  unfold has_tips_array in Ha.
  destruct (insight_field _ _) as [[]|]; try reflexivity. discriminate Ha.
Qed.

(** The first request is answered by the text of the empty object. *)
Lemma panel_throws_without_tips_witness :
  let o := Responded (Some "{}"%string) in
  pending (mount true) !! 0%nat = Some initialStats /\
  truthy (getBatteryInsights JSON.parse initialStats o) = true /\
  has_tips_array (getBatteryInsights JSON.parse initialStats o) = false /\
  renderInsightPanel (step JSON.parse (FetchSettled 0 o) (mount true))
  = PanelTypeError.
Proof.
  cbv zeta.
  split; [reflexivity|]. split; [vm_compute; reflexivity|].
  split; [vm_compute; reflexivity|].
  apply (panel_throws_without_tips JSON.parse (mount true) 0
           (Responded (Some "{}"%string)) initialStats eq_refl).
  - vm_compute. reflexivity.
  - vm_compute. reflexivity.
Defined.

(** ** Subscriptions of the battery effect *)

Import Lifecycle.

Lemma removeEventListener_absent {A} `{EqDecision A} (l : A) (ls : list A) :
  l ∉ ls -> removeEventListener l ls = ls.
Proof.
  intros Hl. unfold removeEventListener.
  induction ls as [|x ls IH]; [reflexivity|].
  apply not_elem_of_cons in Hl as [Hx Hls].
  rewrite filter_cons_True by congruence. f_equal. apply IH, Hls.
Qed.

Lemma addEventListener_fresh {A} `{EqDecision A} (l : A) (ls : list A) :
  l ∉ ls -> addEventListener l ls = ls ++ [l].
Proof. intros Hl. unfold addEventListener. destruct (decide _); done. Qed.

Lemma elem_of_listeners_of (l : Listener) (inst : list nat) :
  l ∈ listeners_of inst -> exists k t, l = (t, Arrow k t) /\ k ∈ inst.
Proof.
  unfold listeners_of. rewrite list_elem_of_In, in_flat_map.
  intros (k & Hk & Hl). apply in_rev in Hk. apply list_elem_of_In in Hk.
  simpl in Hl. destruct Hl as [<- | [<- | [<- | [<- | []]]]]; eauto.
Qed.

Lemma listeners_of_cons (k : nat) (inst : list nat) :
  listeners_of (k :: inst) = listeners_of inst ++ arrows k.
Proof.
  unfold listeners_of. simpl. rewrite flat_map_app. reflexivity.
Qed.

Lemma calls_listeners_of (t : BatteryEventType) (inst : list nat) :
  length (filter (fun l : Listener => l.1 = t) (listeners_of inst))
  = length inst.
Proof.
  induction inst as [|k inst IH]; [reflexivity|].
  rewrite listeners_of_cons, filter_app, length_app, IH.
  assert (length (filter (fun l : Listener => l.1 = t) (arrows k)) = 1%nat)
    as -> by (destruct t; reflexivity).
  simpl. lia.
Qed.

Lemma mounted_inv : subs_inv mounted.
Proof.
  unfold subs_inv, mounted. simpl. split; [reflexivity|].
  split; [rewrite addEventListener_fresh by apply not_elem_of_nil; reflexivity|].
  split; [reflexivity|]. split; [|split].
  - intros k _ Hk. inversion Hk.
  - intros k Hk. apply list_elem_of_singleton in Hk. lia.
  - intros k Hk. inversion Hk.
Qed.

Lemma cleanup_keeps_listeners (k : nat) (st : Subscriptions) :
  listeners st = listeners_of (instances st) ->
  listeners (effectCleanup k st) = listeners st.
Proof.
  intros Hl. simpl. destruct (decide _); [|reflexivity].
  assert (forall t, (t, UpdateBatteryInfo k) ∉ listeners st) as Habsent.
  { intros t Hin. rewrite Hl in Hin.
    apply elem_of_listeners_of in Hin as (k' & t' & Heq & _).
    discriminate Heq. }
  rewrite (removeEventListener_absent (levelchange, _)) by apply Habsent.
  apply removeEventListener_absent, Habsent.
Qed.

Lemma resolved_adds_arrows (k : nat) (st : Subscriptions) :
  listeners st = listeners_of (instances st) ->
  k ∈ unresolved st -> k ∉ instances st ->
  batteryResolved k st =
  mkSubs (current st) (filter (fun k' => k' <> k) (unresolved st))
         (k :: instances st) (listeners st ++ arrows k)
         (timers st) (promptHandlers st).
Proof.
  intros Hl Hu Hi. unfold batteryResolved.
  destruct (decide _); [|contradiction]. f_equal.
  assert (forall t, (t, Arrow k t) ∉ listeners st) as Hfresh.
  { intros t Hin. rewrite Hl in Hin.
    apply elem_of_listeners_of in Hin as (k' & t' & Heq & Hk').
    injection Heq as _ <- _. contradiction. }
  rewrite (addEventListener_fresh (levelchange, _)) by apply Hfresh.
  rewrite (addEventListener_fresh (chargingchange, _)).
  2:{ rewrite not_elem_of_app. split; [apply Hfresh|].
      rewrite list_elem_of_singleton. discriminate. }
  rewrite (addEventListener_fresh (chargingtimechange, _)).
  2:{ rewrite !not_elem_of_app. repeat split; [apply Hfresh| |];
        rewrite list_elem_of_singleton; discriminate. }
  rewrite (addEventListener_fresh (dischargingtimechange, _)).
  2:{ rewrite !not_elem_of_app. repeat split; [apply Hfresh| | |];
        rewrite list_elem_of_singleton; discriminate. }
  rewrite <- !app_assoc. reflexivity.
Qed.

Lemma resolved_unknown (k : nat) (st : Subscriptions) :
  k ∉ unresolved st -> batteryResolved k st = st.
Proof.
  intros Hk. unfold batteryResolved. destruct (decide _); done.
Qed.

Lemma step_subs_inv (e : LifecycleEvent) (st : Subscriptions) :
  subs_inv st -> subs_inv (lifecycle_step e st).
Proof.
  intros (Ht & Hp & Hl & Hu & Hub & Hi). destruct e as [|k].
  - unfold lifecycle_step. repeat split.
    + simpl. rewrite Ht.
      rewrite filter_cons_False by (intros H; apply H; reflexivity).
      reflexivity.
    + simpl. rewrite Hp. unfold removeEventListener.
      rewrite filter_cons_False by (intros H; apply H; reflexivity).
      reflexivity.
    + change (listeners (effectCleanup (current st) st)
              = listeners_of (instances st)).
      rewrite cleanup_keeps_listeners; assumption.
    + simpl. intros k Hk Hin. apply elem_of_app in Hk as [Hk | Hk].
      * exact (Hu k Hk Hin).
      * apply list_elem_of_singleton in Hk. subst k.
        apply Hi in Hin. lia.
    + simpl. intros k Hk. apply elem_of_app in Hk as [Hk | Hk].
      * apply Hub in Hk. lia.
      * apply list_elem_of_singleton in Hk. lia.
    + simpl. intros k Hk. apply Hi in Hk. lia.
  - simpl. destruct (decide (k ∈ unresolved st)) as [Hk | Hk].
    + rewrite resolved_adds_arrows by auto.
      unfold subs_inv. simpl.
      split; [exact Ht|]. split; [exact Hp|].
      split; [rewrite Hl, listeners_of_cons; reflexivity|].
      split; [|split].
      * intros k' Hk' Hin. apply list_elem_of_filter in Hk' as [Hne Hk'].
        apply elem_of_cons in Hin as [-> | Hin]; [congruence|].
        exact (Hu k' Hk' Hin).
      * intros k' Hk'. apply list_elem_of_filter in Hk' as [_ Hk'].
        apply Hub, Hk'.
      * intros k' Hin. apply elem_of_cons in Hin as [-> | Hin].
        -- apply Hub, Hk.
        -- apply Hi, Hin.
    + rewrite resolved_unknown by exact Hk. repeat split; assumption.
Qed.

Lemma lifecycle_run_inv (es : list LifecycleEvent) (st : Subscriptions) :
  subs_inv st -> subs_inv (lifecycle_run es st).
Proof.
  revert st. induction es as [|e es IH]; intros st H; [exact H|].
  simpl. apply IH, step_subs_inv, H.
Qed.

Lemma current_step (e : LifecycleEvent) (st : Subscriptions) :
  current (lifecycle_step e st)
  = (if is_rerender e then S (current st) else current st).
Proof.
  destruct e as [|k]; simpl; [reflexivity|].
  unfold batteryResolved. destruct (decide _); reflexivity.
Qed.

Lemma rerenders_cons (e : LifecycleEvent) (es : list LifecycleEvent) :
  rerenders (e :: es)
  = ((if is_rerender e then 1 else 0) + rerenders es)%nat.
Proof.
  unfold rerenders. destruct e as [|k].
  - rewrite filter_cons_True by reflexivity. reflexivity.
  - rewrite filter_cons_False by discriminate. reflexivity.
Qed.

Lemma current_run (es : list LifecycleEvent) (st : Subscriptions) :
  current (lifecycle_run es st) = (current st + rerenders es)%nat.
Proof.
  revert st. induction es as [|e es IH]; intros st.
  - unfold rerenders. simpl. lia.
  - change (lifecycle_run (e :: es) st)
      with (lifecycle_run es (lifecycle_step e st)).
    rewrite IH, current_step, rerenders_cons.
    destruct (is_rerender e); lia.
Qed.

(** The cleanup of the battery effect removes no listener from the battery,
    because it passes [updateBatteryInfo] where arrow functions were added;
    no event ever removes one.  The battery therefore carries four listeners
    for every run of the effect whose [getBattery] promise has resolved, and
    one battery event of any type calls [updateBatteryInfo] once per such
    run. *)
Theorem battery_listeners_accumulate (es : list LifecycleEvent)
  (e : LifecycleEvent) (t : BatteryEventType) :
  let st := lifecycle_run es mounted in
  listeners (effectCleanup (current st) st) = listeners st /\
  listeners st `prefix_of` listeners (lifecycle_step e st) /\
  length (listeners st) = (4 * length (instances st))%nat /\
  calls_per_event t st = length (instances st).
Proof.
  cbv zeta.
  pose proof (lifecycle_run_inv es mounted mounted_inv) as Hinv.
  set (st := lifecycle_run es mounted) in *.
  destruct Hinv as (Ht & Hp & Hl & Hu & Hub & Hi).
  split; [apply cleanup_keeps_listeners, Hl|]. split; [|split].
  - destruct e as [|k].
    + change (listeners st
              `prefix_of` listeners (effectCleanup (current st) st)).
      rewrite cleanup_keeps_listeners by exact Hl. reflexivity.
    + simpl. destruct (decide (k ∈ unresolved st)) as [Hk | Hk].
      * rewrite resolved_adds_arrows by auto. simpl.
        apply prefix_app_r. reflexivity.
      * rewrite resolved_unknown by exact Hk. reflexivity.
  - rewrite Hl. clear. induction (instances st) as [|k inst IH]; [reflexivity|].
    rewrite listeners_of_cons, length_app, IH. simpl. lia.
  - unfold calls_per_event. rewrite Hl. apply calls_listeners_of.
Qed.

(** Three runs of the effect, each with its promise resolved: one
    [levelchange] event calls [updateBatteryInfo] three times. *)
Example three_runs_three_calls :
  calls_per_event levelchange
    (lifecycle_run [BatteryResolved 0; LevelRerender; BatteryResolved 1;
                    LevelRerender; BatteryResolved 2] mounted) = 3%nat.
Proof. vm_compute. reflexivity. Qed.

(** Unlike the battery listeners, the history interval and the
    [beforeinstallprompt] handler are cleaned up for real: after any run of
    events exactly one interval and one handler are active, those of the
    latest run of the effect, and the effect has run once more than there
    were renders with a new level. *)
Theorem one_history_timer (es : list LifecycleEvent) :
  let st := lifecycle_run es mounted in
  timers st = [current st] /\
  promptHandlers st = [current st] /\
  current st = rerenders es.
Proof.
  cbv zeta.
  destruct (lifecycle_run_inv es mounted mounted_inv) as (Ht & Hp & _).
  split; [exact Ht|]. split; [exact Hp|].
  rewrite current_run. reflexivity.
Qed.

(** ** Bookkeeping of the requests *)

Lemma requests_insightEffect (s : AppState) :
  (pending (insightEffect s) = pending s
   /\ fetchCount (insightEffect s) = fetchCount s)
  \/ (pending (insightEffect s) = pending s ++ [stats s]
      /\ fetchCount (insightEffect s) = S (fetchCount s)).
Proof. unfold_app. split_ifs; simpl; auto. Qed.

Lemma requests_step (parse : string -> ParseResult) (e : Event)
  (s : AppState) :
  (length (pending (step parse e s)) = length (pending s)
   /\ fetchCount (step parse e s) = fetchCount s)
  \/ (length (pending (step parse e s)) = S (length (pending s))
      /\ fetchCount (step parse e s) = S (fetchCount s))
  \/ (S (length (pending (step parse e s))) = length (pending s)
      /\ fetchCount (step parse e s) = fetchCount s).
Proof.
  destruct e as [b|now|online| |i o]; simpl.
  - destruct (_ =? _); [auto|].
    destruct (requests_insightEffect (setStats (updateBatteryInfo b) s))
      as [[-> ->] | [-> ->]]; [auto|].
    right. left. rewrite length_app. simpl. split; [lia | reflexivity].
  - auto.
  - destruct (Bool.eqb _ _); [auto|].
    destruct (requests_insightEffect (setIsOnline online s))
      as [[-> ->] | [-> ->]]; [auto|].
    right. left. rewrite length_app. simpl. split; [lia | reflexivity].
  - unfold_app. split_ifs; simpl; auto.
    right. left. rewrite length_app. simpl. split; [lia | reflexivity].
  - destruct (pending s !! i) as [request|] eqn:Hp; [|auto].
    right. right.
    assert (S (length (delete i (pending s))) = length (pending s)) as Hlen.
    { rewrite length_delete by eauto. apply lookup_lt_Some in Hp. lia. }
    unfold_app. split_ifs; simpl; auto.
Qed.

(** In every state the component reaches: while online the last requested
    level is set and less than 5 points from the level on display; the last
    requested level is unset exactly while no call was made; the loading flag
    is raised only while a request is in flight; and no more requests are in
    flight than calls were made. *)
Theorem debounce_bookkeeping (parse : string -> ParseResult) (onLine : bool)
  (es : list Event) :
  let s := run parse es (mount onLine) in
  (isOnline s = true ->
   exists l0, lastFetchedLevel s = Some l0
              /\ Z.abs (level (stats s) - l0) < 5) /\
  (lastFetchedLevel s = None <-> fetchCount s = 0%nat) /\
  (loadingInsight s = true -> pending s <> []) /\
  (length (pending s) <= fetchCount s)%nat.
Proof.
  cbv zeta.
  destruct (run_inv parse onLine es) as (Hnear & Hcount & Hload).
  split; [|split; [exact Hcount | split; [exact Hload|]]].
  - intros Hon. destruct (Hnear Hon) as (l0 & Hl0 & Hd).
    exists l0. split; [exact Hl0|]. unfold JsNum.Math_abs in Hd. lia.
  - apply (run_invariant parse
             (fun s => (length (pending s) <= fetchCount s)%nat)
             (fun _ => True)).
    + intros e s _ H.
      destruct (requests_step parse e s) as [[? ?] | [[? ?] | [? ?]]]; lia.
    + apply Forall_forall. intros; exact I.
    + unfold mount.
      destruct (requests_insightEffect (initialState onLine))
        as [[-> ->] | [-> ->]]; simpl; lia.
Qed.
